(** * The distant directional sensor of [src/sensors/distant.cpp]

    A shallow embedding of the [DistantSensor] plugin and of its six
    specialisations [DistantSensorImpl<Float, Spectrum, TargetType, OriginType>],
    followed by the properties of construction, scene binding and ray
    generation.

    Arithmetic.  The plugin is templated over [Float].  The embedding keeps
    that parameter: every definition is stated over an arbitrary carrier [F]
    with the operations the source applies to it (class [Scalar]) and assumes
    no law about them.  A theorem that needs an algebraic law (associativity
    of the product, say) takes that law as a hypothesis; a theorem without
    such a hypothesis holds for any arithmetic whatsoever.  The canonical
    rationals [Qc] give a concrete, computable instance on which the
    definitions are evaluated, and the binary64 floats a second one.

    Host.  Whatever the plugin calls but does not define (transforms, warps,
    the wavelength sampler, the mask macros, the ray epsilon) is gathered in
    the class [Host] and left uninterpreted. *)

From Stdlib Require Import ZArith QArith Qcanon List String Bool Lia Floats.
From stdpp Require Import base option gmap strings.

Set Implicit Arguments.
Local Open Scope string_scope.

(* ===================================================================== *)
(** ** Scalars, vectors, spectra *)
(* ===================================================================== *)

(** The operations of [Float] used by the plugin.  [f_zero], [f_one], [f_two]
    and [f_half] are the literals [0.f], [1.f], [2.f] and [0.5f]. *)
Class Scalar (F : Type) : Type := {
  f_zero : F;
  f_one  : F;
  f_two  : F;
  f_half : F;
  f_add  : F -> F -> F;
  f_sub  : F -> F -> F;
  f_mul  : F -> F -> F;
  f_div  : F -> F -> F;
  f_neg  : F -> F;
  f_rcp  : F -> F;
  f_ltb  : F -> F -> bool
}.

(** [max(a, b)] on scalars: [a < b ? b : a]. *)
Definition f_max {F} `{Scalar F} (a b : F) : F :=
  if f_ltb a b then b else a.

Section Vectors.
Context {F : Type} `{Scalar F}.

(** [Vector3f] and [Point3f] share one representation; the source
    distinguishes them only through the overloads it calls. *)
Record Vector3f : Type := mkVector3f { vx : F; vy : F; vz : F }.
Definition Point3f : Type := Vector3f.

Record Point2f : Type := mkPoint2f { px : F; py : F }.

(** Unary minus, [a + b], [a - b], [v * s], [rcp(v)], [dot(a, b)]. *)
Definition vneg (a : Vector3f) : Vector3f :=
  mkVector3f (f_neg (vx a)) (f_neg (vy a)) (f_neg (vz a)).
Definition vadd (a b : Vector3f) : Vector3f :=
  mkVector3f (f_add (vx a) (vx b)) (f_add (vy a) (vy b)) (f_add (vz a) (vz b)).
Definition vsub (a b : Vector3f) : Vector3f :=
  mkVector3f (f_sub (vx a) (vx b)) (f_sub (vy a) (vy b)) (f_sub (vz a) (vz b)).
Definition vscale (a : Vector3f) (s : F) : Vector3f :=
  mkVector3f (f_mul (vx a) s) (f_mul (vy a) s) (f_mul (vz a) s).
Definition vrcp (a : Vector3f) : Vector3f :=
  mkVector3f (f_rcp (vx a)) (f_rcp (vy a)) (f_rcp (vz a)).
Definition dot (a b : Vector3f) : F :=
  f_add (f_add (f_mul (vx a) (vx b)) (f_mul (vy a) (vy b)))
        (f_mul (vz a) (vz b)).

(** The local axis [Vector3f{ 0.f, 0.f, 1.f }]. *)
Definition axis_z : Vector3f := mkVector3f f_zero f_zero f_one.

(** A [Spectrum] (and a [Wavelength]) is an array of scalars, one per
    channel of the variant. *)
Definition Spectrum : Type := list F.
Definition Wavelength : Type := list F.

(** [Spectrum w = s] broadcasts a scalar; [w / s] divides every channel. *)
Definition spectrum_fill (n : nat) (s : F) : Spectrum := repeat s n.
Definition spectrum_div (w : Spectrum) (s : F) : Spectrum :=
  List.map (fun c => f_div c s) w.

(** A [Mask] lane. *)
Definition Mask : Type := bool.

(** [w && active]: the channels of an active lane are kept, those of an
    inactive lane are zeroed. *)
Definition mask_and (w : Spectrum) (active : Mask) : Spectrum :=
  if active then w else List.map (fun _ => f_zero) w.

(** Every channel is [0.f]. *)
Definition spectrum_is_zero (w : Spectrum) : Prop :=
  List.Forall (fun c => c = f_zero) w.
End Vectors.

Arguments Vector3f F : clear implicits.
Arguments Point3f F : clear implicits.
Arguments Point2f F : clear implicits.
Arguments Spectrum F : clear implicits.
Arguments Wavelength F : clear implicits.

(* ===================================================================== *)
(** ** Errors *)
(* ===================================================================== *)

(** A computation that either returns or leaves through [Throw(...)]. *)
Inductive Result (A : Type) : Type :=
| Ok (a : A)
| Throw (msg : string).
Arguments Ok {A} a.
Arguments Throw {A} msg.

#[export] Instance Result_ret : MRet Result := fun _ a => Ok a.
#[export] Instance Result_bind : MBind Result := fun _ _ k r =>
  match r with
  | Ok a => k a
  | Throw msg => Throw msg
  end.

Definition is_throw {A} (r : Result A) : bool :=
  match r with
  | Ok _ => false
  | Throw _ => true
  end.

(* ===================================================================== *)
(** ** The enumerations of the plugin *)
(* ===================================================================== *)

(** [enum class RayTargetType { Shape, Point, None }]. *)
Module RayTargetType.
Inductive t : Set := Shape | Point | None.
End RayTargetType.

(** [enum class RayOriginType { Shape, BoundingSphere }]. *)
Module RayOriginType.
Inductive t : Set := Shape | BoundingSphere.
End RayOriginType.

(** [enum class RayDirectionType { Single, SampleWidth, SampleAll }]. *)
Module RayDirectionType.
Inductive t : Set := Single | SampleWidth | SampleAll.
End RayDirectionType.

(* ===================================================================== *)
(** ** Rays, shapes, film, scene *)
(* ===================================================================== *)

Section Records.
Context {F : Type} `{Scalar F}.

(** The fields of [Ray3f] the plugin reads or writes. *)
Record Ray3f : Type := mkRay3f {
  ray_o : Point3f F;
  ray_d : Vector3f F;
  ray_d_rcp : Vector3f F;
  ray_time : F;
  ray_wavelengths : Wavelength F
}.

(** [RayDifferential3f] extends [Ray3f]. *)
Record RayDifferential3f : Type := mkRayDifferential3f {
  rd_ray : Ray3f;
  rd_o_x : Point3f F;
  rd_o_y : Point3f F;
  rd_d_x : Vector3f F;
  rd_d_y : Vector3f F;
  has_differentials : bool
}.

Definition zero3 : Vector3f F := mkVector3f f_zero f_zero f_zero.

(** A default-constructed ray.  C++ leaves [o], [d], [d_rcp] and the
    wavelengths without a value there; the embedding puts zeros and the
    empty array, and the generator overwrites all of them but [d_rcp],
    which [update()] sets. *)
Definition Ray3f_default : Ray3f :=
  mkRay3f zero3 zero3 zero3 f_zero nil.

(** [Ray3f(o, d, time)]. *)
Definition Ray3f_ctor (o : Point3f F) (d : Vector3f F) (time : F) : Ray3f :=
  mkRay3f o d (vrcp d) time nil.

(** [ray.update()] recomputes the reciprocal direction. *)
Definition Ray3f_update (r : Ray3f) : Ray3f :=
  mkRay3f (ray_o r) (ray_d r) (vrcp (ray_d r)) (ray_time r)
          (ray_wavelengths r).

(** [PositionSample3f]: sampled point, normal and density. *)
Record PositionSample3f : Type := mkPositionSample3f {
  ps_p : Point3f F;
  ps_n : Vector3f F;
  ps_pdf : F
}.

(** [SurfaceInteraction3f]: the hit point, and what [is_valid()] answers
    (whether the distance [t] is finite). *)
Record SurfaceInteraction3f : Type := mkSurfaceInteraction3f {
  si_p : Point3f F;
  si_is_valid : Mask
}.

(** [SurfaceInteraction3f si(ps, wavelengths)] copies the sampled point;
    its distance is [0], hence finite. *)
Definition SurfaceInteraction3f_of_ps (ps : PositionSample3f)
  : SurfaceInteraction3f :=
  mkSurfaceInteraction3f (ps_p ps) true.

(** The interface of [Shape] the plugin calls. *)
Record Shape : Type := mkShape {
  sample_position : F -> Point2f F -> Mask -> PositionSample3f;
  surface_area : F;
  ray_intersect : Ray3f -> Mask -> SurfaceInteraction3f
}.

(** [Film]: [size()] and [reconstruction_filter()->radius()]. *)
Record Film : Type := mkFilm {
  film_size : Z * Z;
  film_filter_radius : F
}.

(** [ScalarBoundingSphere3f]. *)
Record BoundingSphere3f : Type := mkBoundingSphere3f {
  center : Point3f F;
  radius : F
}.

(** [Scene]: the plugin only asks [bbox().bounding_sphere()]. *)
Record Scene : Type := mkScene {
  scene_bounding_sphere : BoundingSphere3f
}.
End Records.

Arguments Ray3f F : clear implicits.
Arguments RayDifferential3f F : clear implicits.
Arguments PositionSample3f F : clear implicits.
Arguments SurfaceInteraction3f F : clear implicits.
Arguments Shape F : clear implicits.
Arguments Film F : clear implicits.
Arguments BoundingSphere3f F : clear implicits.
Arguments Scene F : clear implicits.

(** [template <typename RayVariant>]: what [sample_ray_impl] needs of its ray
    type is a default constructor and access to the [Ray3f] part. *)
Class RayVariant {F : Type} `{Scalar F} (R : Type) : Type := {
  ray_new : R;
  ray_base : R -> Ray3f F;
  ray_with : R -> Ray3f F -> R
}.

#[export] Instance RayVariant_Ray3f {F} `{Scalar F} : RayVariant (Ray3f F) := {
  ray_new := Ray3f_default;
  ray_base := fun r => r;
  ray_with := fun _ b => b
}.

#[export] Instance RayVariant_RayDifferential3f {F} `{Scalar F}
  : RayVariant (RayDifferential3f F) := {
  ray_new := mkRayDifferential3f Ray3f_default zero3 zero3 zero3 zero3 false;
  ray_base := @rd_ray F;
  ray_with := fun r b =>
    mkRayDifferential3f b (rd_o_x r) (rd_o_y r) (rd_d_x r) (rd_d_y r)
                        (has_differentials r)
}.

(* ===================================================================== *)
(** ** The host renderer *)
(* ===================================================================== *)

(** Everything the plugin calls and this file does not define.  No property
    of these is assumed. *)
Class Host {F : Type} (SF : Scalar F) : Type := {
  Transform4f : Type;
  AnimatedTransform : Type;
  (** [ScalarTransform4f()], [trafo.transform_affine(v)] on a vector,
      [ScalarTransform4f::look_at(origin, target, up)]. *)
  transform_identity : Transform4f;
  transform_affine : Transform4f -> Vector3f F -> Vector3f F;
  look_at : Point3f F -> Point3f F -> Vector3f F -> Transform4f;
  (** [new AnimatedTransform(t)] and [m_world_transform->eval(time, active)]. *)
  animated_new : Transform4f -> AnimatedTransform;
  animated_eval : AnimatedTransform -> F -> Mask -> Transform4f;
  (** [normalize], [cross], [coordinate_system]. *)
  normalize : Vector3f F -> Vector3f F;
  cross : Vector3f F -> Vector3f F -> Vector3f F;
  coordinate_system : Vector3f F -> Vector3f F * Vector3f F;
  (** [sample_wavelength<Float, Spectrum>(sample)]. *)
  sample_wavelength : F -> Wavelength F * Spectrum F;
  (** [warp::square_to_uniform_hemisphere],
      [warp::square_to_uniform_disk_concentric]. *)
  square_to_uniform_hemisphere : Point2f F -> Vector3f F;
  square_to_uniform_disk_concentric : Point2f F -> Point2f F;
  (** [sincos(x)] returns the pair (sine, cosine). *)
  sincos : F -> F * F;
  Pi : F;
  RayEpsilon : F;
  (** The macros [MTS_MASK_ARGUMENT(active)] and
      [MTS_MASKED_FUNCTION(phase, active)]: all they do to the program state
      is to reassign the mask. *)
  MTS_MASK_ARGUMENT : Mask -> Mask;
  MTS_MASKED_FUNCTION : Mask -> Mask;
  (** Number of channels of [Spectrum] in the variant. *)
  spectrum_channels : nat;
  (** The film a sensor gets when its properties name none. *)
  default_film : Film F
}.

(* ===================================================================== *)
(** ** The plugin *)
(* ===================================================================== *)

Section Plugin.
Context {F : Type} {SF : Scalar F} {HF : Host SF}.

(** *** Properties *)

(** The objects a property may reference; [dynamic_cast<Shape *>] succeeds
    on the first kind only. *)
Inductive Object : Type :=
| ObjShape (sh : Shape F)
| ObjFilm (film : Film F)
| ObjOther (class_name : string).

Definition dynamic_cast_Shape (obj : Object) : option (Shape F) :=
  match obj with
  | ObjShape sh => Some sh
  | _ => None
  end.

Inductive PropValue : Type :=
| PBool (b : bool)
| PVector3f (v : Vector3f F)
| PPoint3f (p : Point3f F)
| PTransform (t : AnimatedTransform)
| PObject (obj : Object).

(** Modelled from the spec: the configuration bag [Properties] (its source
    is not part of the plugin).  A bag maps parameter names to typed
    values; a typed getter returns the value when the entry has that type
    and throws otherwise; a getter with a default returns the default when
    the entry is absent.  [mark_queried] only records that an entry was
    looked at and is left out. *)
Local Abbreviation Properties := (gmap string PropValue).

Definition has_property (props : Properties) (name : string) : bool :=
  match props !! name with
  | Some _ => true
  | None => false
  end.

Definition point3f (props : Properties) (name : string) : Result (Point3f F) :=
  match props !! name with
  | Some (PPoint3f p) => Ok p
  | Some _ => Throw "property has the wrong type (expected <point>)"
  | None => Throw "property has not been specified"
  end.

Definition vector3f (props : Properties) (name : string) : Result (Vector3f F) :=
  match props !! name with
  | Some (PVector3f v) => Ok v
  | Some _ => Throw "property has the wrong type (expected <vector>)"
  | None => Throw "property has not been specified"
  end.

Definition object (props : Properties) (name : string) : Result Object :=
  match props !! name with
  | Some (PObject obj) => Ok obj
  | Some _ => Throw "property has the wrong type (expected <object>)"
  | None => Throw "property has not been specified"
  end.

Definition bool_ (props : Properties) (name : string) (def : bool) : Result bool :=
  match props !! name with
  | Some (PBool b) => Ok b
  | Some _ => Throw "property has the wrong type (expected <boolean>)"
  | None => Ok def
  end.

Definition animated_transform (props : Properties) (name : string)
           (def : AnimatedTransform) : Result AnimatedTransform :=
  match props !! name with
  | Some (PTransform t) => Ok t
  | Some _ => Throw "property has the wrong type (expected <transform>)"
  | None => Ok def
  end.

(** Modelled from the spec: the constructor of the base class [Sensor]
    (not part of the plugin).  It sets [m_world_transform] from the
    explicit transform parameter [to_world], the identity when absent, and
    [m_film] from the film the properties carry, the host's default film
    when they carry none. *)
Definition Sensor_ctor (props : Properties)
  : Result (AnimatedTransform * Film F) :=
  world_transform ← animated_transform props "to_world"
                                       (animated_new transform_identity);
  film ← match props !! "film" with
         | Some (PObject (ObjFilm film)) => Ok film
         | Some _ => Throw "film: not a film"
         | None => Ok default_film
         end;
  Ok (world_transform, film).

(** *** [DistantSensor]: selection of the specialisation *)

(** Lines 113-124: the target strategy.  [props.point3f] throwing a
    [std::runtime_error] is what selects [Shape]. *)
Definition select_ray_target_type (props : Properties) : RayTargetType.t :=
  if has_property props "ray_target" then
    match point3f props "ray_target" with
    | Ok _ => RayTargetType.Point
    | Throw _ => RayTargetType.Shape
    end
  else RayTargetType.None.

(** Lines 127-131: the origin strategy. *)
Definition select_ray_origin_type (props : Properties) : RayOriginType.t :=
  if has_property props "ray_origin" then RayOriginType.Shape
  else RayOriginType.BoundingSphere.

Record DistantSensor : Type := mkDistantSensor {
  m_props : Properties;
  m_ray_target_type : RayTargetType.t;
  m_ray_origin_type : RayOriginType.t
}.

(** [DistantSensor::DistantSensor(props)]. *)
Definition DistantSensor_ctor (props : Properties) : Result DistantSensor :=
  _ ← Sensor_ctor props;
  Ok (mkDistantSensor props (select_ray_target_type props)
                      (select_ray_origin_type props)).

(** *** [DistantSensorImpl<Float, Spectrum, TargetType, OriginType>] *)

(** The template arguments [TargetType] and [OriginType] are kept as the
    first two fields; the shape references are nullable. *)
Record DistantSensorImpl : Type := mkDistantSensorImpl {
  TargetType : RayTargetType.t;
  OriginType : RayOriginType.t;
  m_world_transform : AnimatedTransform;
  m_film : Film F;
  m_bsphere : BoundingSphere3f F;
  m_flip_directions : bool;
  m_direction_type : RayDirectionType.t;
  m_ray_target_shape : option (Shape F);
  m_ray_target_point : Point3f F;
  m_ray_origin_shape : option (Shape F)
}.

(** Lines 232-238: the direction mode, from [m_film->size()]. *)
Definition select_direction_type (film_size : Z * Z) : RayDirectionType.t :=
  let '(w, h) := film_size in
  if ((w =? 1) && (h =? 1))%Z then RayDirectionType.Single
  else if (h =? 1)%Z then RayDirectionType.SampleWidth
  else RayDirectionType.SampleAll.

(** Lines 241-244: whether the filter-radius warning is logged. *)
Definition warns_filter_radius (film : Film F) : bool :=
  f_ltb (f_add f_half RayEpsilon) (film_filter_radius film).

(** Lines 247-264: the world transform, possibly from [direction]. *)
Definition compute_world_transform (props : Properties)
           (base_transform : AnimatedTransform) : Result AnimatedTransform :=
  if has_property props "direction" then
    if has_property props "to_world" then
      Throw "Only one of the parameters 'direction' and 'to_world'can be specified at the same time!'"
    else
      v ← vector3f props "direction";
      let direction := normalize v in
      up ← (if has_property props "orientation" then
              o ← vector3f props "orientation";
              Ok (normalize (cross direction o))
            else Ok (snd (coordinate_system direction)));
      Ok (animated_new (look_at zero3 direction up))
  else Ok base_transform.

(** Lines 267-278: the target members. *)
Definition init_ray_target (T : RayTargetType.t) (props : Properties)
  : Result (Point3f F * option (Shape F)) :=
  match T with
  | RayTargetType.Point =>
      p ← point3f props "ray_target";
      Ok (p, None)
  | RayTargetType.Shape =>
      obj ← object props "ray_target";
      match dynamic_cast_Shape obj with
      | Some sh => Ok (zero3, Some sh)
      | None => Throw "Invalid parameter ray_target, must be a Point3f or a Shape."
      end
  | RayTargetType.None => Ok (zero3, None)
  end.

(** Lines 281-289: the origin member. *)
Definition init_ray_origin (O : RayOriginType.t) (props : Properties)
  : Result (option (Shape F)) :=
  match O with
  | RayOriginType.Shape =>
      obj ← object props "ray_origin";
      match dynamic_cast_Shape obj with
      | Some sh => Ok (Some sh)
      | None => Throw "Invalid parameter ray_origin, must be a Shape."
      end
  | RayOriginType.BoundingSphere => Ok None
  end.

(** [DistantSensorImpl::DistantSensorImpl(props)].  The bounding sphere
    starts as the default one (centre and radius zero). *)
Definition DistantSensorImpl_ctor (T : RayTargetType.t) (O : RayOriginType.t)
           (props : Properties) : Result DistantSensorImpl :=
  '(base_transform, film) ← Sensor_ctor props;
  flip_directions ← bool_ props "flip_directions" false;
  let direction_type := select_direction_type (film_size film) in
  world_transform ← compute_world_transform props base_transform;
  '(target_point, target_shape) ← init_ray_target T props;
  origin_shape ← init_ray_origin O props;
  Ok (mkDistantSensorImpl T O world_transform film
        (mkBoundingSphere3f zero3 f_zero) flip_directions direction_type
        target_shape target_point origin_shape).

(** [DistantSensor::expand()]: one [new Impl<T, O>(m_props)] per pair of
    tags.  The two [default:] branches cannot be taken, the enumerations
    having no other value. *)
Definition expand (ds : DistantSensor) : Result DistantSensorImpl :=
  match m_ray_target_type ds, m_ray_origin_type ds with
  | RayTargetType.Shape, RayOriginType.BoundingSphere =>
      DistantSensorImpl_ctor RayTargetType.Shape RayOriginType.BoundingSphere
                             (m_props ds)
  | RayTargetType.Shape, RayOriginType.Shape =>
      DistantSensorImpl_ctor RayTargetType.Shape RayOriginType.Shape
                             (m_props ds)
  | RayTargetType.Point, RayOriginType.BoundingSphere =>
      DistantSensorImpl_ctor RayTargetType.Point RayOriginType.BoundingSphere
                             (m_props ds)
  | RayTargetType.Point, RayOriginType.Shape =>
      DistantSensorImpl_ctor RayTargetType.Point RayOriginType.Shape
                             (m_props ds)
  | RayTargetType.None, RayOriginType.BoundingSphere =>
      DistantSensorImpl_ctor RayTargetType.None RayOriginType.BoundingSphere
                             (m_props ds)
  | RayTargetType.None, RayOriginType.Shape =>
      DistantSensorImpl_ctor RayTargetType.None RayOriginType.Shape
                             (m_props ds)
  end.

(** Loading a [distant] plugin: construct, then expand. *)
Definition load (props : Properties) : Result DistantSensorImpl :=
  ds ← DistantSensor_ctor props;
  expand ds.

(** *** [set_scene] *)

Definition with_bsphere (s : DistantSensorImpl) (b : BoundingSphere3f F)
  : DistantSensorImpl :=
  mkDistantSensorImpl (TargetType s) (OriginType s) (m_world_transform s)
    (m_film s) b (m_flip_directions s) (m_direction_type s)
    (m_ray_target_shape s) (m_ray_target_point s) (m_ray_origin_shape s).

Definition with_ray_origin_shape (s : DistantSensorImpl)
           (sh : option (Shape F)) : DistantSensorImpl :=
  mkDistantSensorImpl (TargetType s) (OriginType s) (m_world_transform s)
    (m_film s) (m_bsphere s) (m_flip_directions s) (m_direction_type s)
    (m_ray_target_shape s) (m_ray_target_point s) sh.

(** Lines 292-297. *)
Definition set_scene (s : DistantSensorImpl) (scene : Scene F)
  : DistantSensorImpl :=
  let b := scene_bounding_sphere scene in
  with_bsphere s
    (mkBoundingSphere3f (center b)
       (f_max RayEpsilon (f_mul (radius b) (f_add f_one RayEpsilon)))).

(** *** Ray generation *)

Section SampleRay.
Context {R : Type} {RV : RayVariant R}.

Definition set_time (ray : R) (time : F) : R :=
  let b := ray_base ray in
  ray_with ray (mkRay3f (ray_o b) (ray_d b) (ray_d_rcp b) time
                        (ray_wavelengths b)).
Definition set_wavelengths (ray : R) (w : Wavelength F) : R :=
  let b := ray_base ray in
  ray_with ray (mkRay3f (ray_o b) (ray_d b) (ray_d_rcp b) (ray_time b) w).
Definition set_d (ray : R) (d : Vector3f F) : R :=
  let b := ray_base ray in
  ray_with ray (mkRay3f (ray_o b) d (ray_d_rcp b) (ray_time b)
                        (ray_wavelengths b)).
Definition set_o (ray : R) (o : Point3f F) : R :=
  let b := ray_base ray in
  ray_with ray (mkRay3f o (ray_d b) (ray_d_rcp b) (ray_time b)
                        (ray_wavelengths b)).
Definition update (ray : R) : R :=
  ray_with ray (Ray3f_update (ray_base ray)).

(** Lines 316-326: the direction in the local frame. *)
Definition local_direction (s : DistantSensorImpl) (film_sample : Point2f F)
  : Vector3f F :=
  let v0 := axis_z in
  match m_direction_type s with
  | RayDirectionType.SampleAll => square_to_uniform_hemisphere film_sample
  | RayDirectionType.SampleWidth =>
      let '(sn, c) := sincos (f_mul Pi (px film_sample)) in
      mkVector3f c (vy v0) sn
  | RayDirectionType.Single => v0
  end.

(** Lines 331-332: the world-space direction. *)
Definition world_direction (s : DistantSensorImpl) (trafo : Transform4f)
           (film_sample : Point2f F) : Vector3f F :=
  let v0 := local_direction s film_sample in
  if m_flip_directions s then transform_affine trafo v0
  else transform_affine trafo (vneg v0).

(** Lines 335-365: the target point and the weight before masking.  A
    null shape reference has no result. *)
Definition sample_target (s : DistantSensorImpl) (trafo : Transform4f)
           (time : F) (aperture_sample : Point2f F) (active : Mask)
           (wav_weight : Spectrum F) (d : Vector3f F)
  : option (Point3f F * Spectrum F) :=
  let ray_weight := spectrum_fill spectrum_channels f_zero in
  let ray_target := m_ray_target_point s in
  match TargetType s with
  | RayTargetType.Point =>
      let ray_weight := wav_weight in
      Some (ray_target, ray_weight)
  | RayTargetType.Shape =>
      sh ← m_ray_target_shape s;
      let ps := sample_position sh time aperture_sample active in
      let si := SurfaceInteraction3f_of_ps ps in
      let ray_target := si_p si in
      let ray_weight :=
        spectrum_div (spectrum_div wav_weight (ps_pdf ps)) (surface_area sh) in
      Some (ray_target, ray_weight)
  | RayTargetType.None =>
      let offset := square_to_uniform_disk_concentric aperture_sample in
      let perp_offset :=
        transform_affine trafo (mkVector3f (px offset) (py offset) f_zero) in
      let ray_target :=
        vadd (center (m_bsphere s))
             (vscale perp_offset (radius (m_bsphere s))) in
      let ray_weight := wav_weight in
      let ray_weight := spectrum_div ray_weight (dot (vneg d) axis_z) in
      Some (ray_target, ray_weight)
  end.

(** Lines 368-383: the origin, and the mask after this step. *)
Definition place_origin (s : DistantSensorImpl) (time : F)
           (ray_target : Point3f F) (d : Vector3f F) (active : Mask)
  : option (Point3f F * Mask) :=
  match OriginType s with
  | RayOriginType.Shape =>
      sh ← m_ray_origin_shape s;
      let tmp_ray := Ray3f_ctor ray_target (vneg d) time in
      let si := ray_intersect sh tmp_ray active in
      let active := active && si_is_valid si in
      Some (si_p si, active)
  | RayOriginType.BoundingSphere =>
      match TargetType s with
      | RayTargetType.None =>
          Some (vsub ray_target (vscale d (radius (m_bsphere s))), active)
      | _ =>
          Some (vsub ray_target
                     (vscale (vscale d f_two) (radius (m_bsphere s))),
                active)
      end
  end.

(** The local variables of [sample_ray_impl] at its [return]. *)
Record Locals : Type := mkLocals {
  l_ray : R;
  l_ray_weight : Spectrum F;
  l_ray_target : Point3f F;
  l_active : Mask
}.

(** Lines 301-383. *)
Definition sample_ray_impl_locals (s : DistantSensorImpl)
           (time wavelength_sample : F)
           (film_sample aperture_sample : Point2f F) (active : Mask)
  : option Locals :=
  let active := MTS_MASK_ARGUMENT active in
  let ray := ray_new in
  let ray := set_time ray time in
  let '(wavelengths, wav_weight) := sample_wavelength wavelength_sample in
  let ray := set_wavelengths ray wavelengths in
  let trafo := animated_eval (m_world_transform s) time active in
  let ray := set_d ray (world_direction s trafo film_sample) in
  '(ray_target, ray_weight) ←
    sample_target s trafo time aperture_sample active wav_weight
                  (ray_d (ray_base ray));
  '(o, active) ←
    place_origin s time ray_target (ray_d (ray_base ray)) active;
  let ray := set_o ray o in
  Some (mkLocals ray ray_weight ray_target active).

(** Line 385: [return { ray, ray_weight && active }]. *)
Definition sample_ray_impl (s : DistantSensorImpl)
           (time wavelength_sample : F)
           (film_sample aperture_sample : Point2f F) (active : Mask)
  : option (R * Spectrum F) :=
  l ← sample_ray_impl_locals s time wavelength_sample film_sample
                             aperture_sample active;
  Some (l_ray l, mask_and (l_ray_weight l) (l_active l)).
End SampleRay.

(** Lines 388-398. *)
Definition sample_ray (s : DistantSensorImpl) (time wavelength_sample : F)
           (film_sample aperture_sample : Point2f F) (active : Mask)
  : option (Ray3f F * Spectrum F) :=
  let active := MTS_MASKED_FUNCTION active in
  '(ray, ray_weight) ←
    sample_ray_impl (R := Ray3f F) s time wavelength_sample film_sample
                    aperture_sample active;
  let ray := update ray in
  Some (ray, mask_and ray_weight active).

(** Lines 400-413. *)
Definition sample_ray_differential (s : DistantSensorImpl)
           (time wavelength_sample : F)
           (film_sample aperture_sample : Point2f F) (active : Mask)
  : option (RayDifferential3f F * Spectrum F) :=
  let active := MTS_MASKED_FUNCTION active in
  '(ray, ray_weight) ←
    sample_ray_impl (R := RayDifferential3f F) s time wavelength_sample
                    film_sample aperture_sample active;
  let ray :=
    mkRayDifferential3f (rd_ray ray) (rd_o_x ray) (rd_o_y ray) (rd_d_x ray)
                        (rd_d_y ray) false in
  let ray := update ray in
  Some (ray, mask_and ray_weight active).

(** *** Packets *)

(** One lane of a packet of samples. *)
Record Lane : Type := mkLane {
  lane_time : F;
  lane_wavelength_sample : F;
  lane_film_sample : Point2f F;
  lane_aperture_sample : Point2f F;
  lane_active : Mask
}.

(** A packet call evaluates every lane; the arithmetic, the masks and the
    shape queries of the plugin all act lane by lane. *)
Definition sample_ray_packet (s : DistantSensorImpl) (lanes : list Lane)
  : list (option (Ray3f F * Spectrum F)) :=
  (fun l => sample_ray s (lane_time l) (lane_wavelength_sample l)
              (lane_film_sample l) (lane_aperture_sample l) (lane_active l))
  <$> lanes.

(** *** Sequences of calls on one sensor *)

Inductive Call : Type :=
| CallSetScene (scene : Scene F)
| CallSampleRay (l : Lane)
| CallSampleRayDifferential (l : Lane).

(** [set_scene] is the only non-[const] member: the two generators leave
    the object as it is. *)
Definition step (s : DistantSensorImpl) (c : Call) : DistantSensorImpl :=
  match c with
  | CallSetScene scene => set_scene s scene
  | CallSampleRay _ => s
  | CallSampleRayDifferential _ => s
  end.

Definition is_generation (c : Call) : bool :=
  match c with
  | CallSetScene _ => false
  | _ => true
  end.

(** *** Vocabulary of the statements *)

(** The mask, the transform, the direction, the target and the probe ray
    of a sample requested through a public entry point. *)
Definition lane_mask (active : Mask) : Mask :=
  MTS_MASK_ARGUMENT (MTS_MASKED_FUNCTION active).

Definition lane_trafo (s : DistantSensorImpl) (time : F) (active : Mask)
  : Transform4f :=
  animated_eval (m_world_transform s) time (lane_mask active).

Definition lane_direction (s : DistantSensorImpl) (time : F)
           (film_sample : Point2f F) (active : Mask) : Vector3f F :=
  world_direction s (lane_trafo s time active) film_sample.

Definition lane_target (s : DistantSensorImpl) (time wavelength_sample : F)
           (film_sample aperture_sample : Point2f F) (active : Mask)
  : option (Point3f F * Spectrum F) :=
  sample_target s (lane_trafo s time active) time aperture_sample
                (lane_mask active) (snd (sample_wavelength wavelength_sample))
                (lane_direction s time film_sample active).

Definition probe_ray (ray_target : Point3f F) (d : Vector3f F) (time : F)
  : Ray3f F :=
  Ray3f_ctor ray_target (vneg d) time.

(** The mask the returned weight has been combined with: the lane is
    valid when it is set. *)
Definition sample_valid (s : DistantSensorImpl) (time wavelength_sample : F)
           (film_sample aperture_sample : Point2f F) (active : Mask)
  : option Mask :=
  l ← sample_ray_impl_locals (R := Ray3f F) s time wavelength_sample
                             film_sample aperture_sample
                             (MTS_MASKED_FUNCTION active);
  Some (l_active l && MTS_MASKED_FUNCTION active).

(** Two configurations that agree everywhere but at [orientation]. *)
Definition agree_but_orientation (p1 p2 : Properties) : Prop :=
  forall name : string, name <> "orientation" -> p1 !! name = p2 !! name.

(** The shape references a specialisation dereferences are set. *)
Definition well_formed (s : DistantSensorImpl) : Prop :=
  (TargetType s = RayTargetType.Shape -> is_Some (m_ray_target_shape s)) /\
  (OriginType s = RayOriginType.Shape -> is_Some (m_ray_origin_shape s)).

End Plugin.

(* ===================================================================== *)
(** ** A computable instance over the canonical rationals *)
(* ===================================================================== *)

Module QcModel.
Local Open Scope Qc_scope.

Definition Qc_ltb (a b : Qc) : bool :=
  match a ?= b with
  | Lt => true
  | _ => false
  end.

#[export] Instance Scalar_Qc : Scalar Qc := {
  f_zero := 0;
  f_one := 1;
  f_two := Q2Qc 2;
  f_half := Q2Qc (1 # 2);
  f_add := Qcplus;
  f_sub := Qcminus;
  f_mul := Qcmult;
  f_div := Qcdiv;
  f_neg := Qcopp;
  f_rcp := Qcinv;
  f_ltb := Qc_ltb
}.

(** The linear part of a transform, by rows. *)
Record Matrix3 : Type := mkMatrix3 {
  row0 : Vector3f Qc;
  row1 : Vector3f Qc;
  row2 : Vector3f Qc
}.

Definition Matrix3_identity : Matrix3 :=
  mkMatrix3 (mkVector3f 1 0 0) (mkVector3f 0 1 0) (mkVector3f 0 0 1).

Definition Matrix3_apply (m : Matrix3) (v : Vector3f Qc) : Vector3f Qc :=
  mkVector3f (dot (row0 m) v) (dot (row1 m) v) (dot (row2 m) v).

Definition Matrix3_of_columns (a b c : Vector3f Qc) : Matrix3 :=
  mkMatrix3 (mkVector3f (vx a) (vx b) (vx c))
            (mkVector3f (vy a) (vy b) (vy c))
            (mkVector3f (vz a) (vz b) (vz c)).

Definition cross_Qc (a b : Vector3f Qc) : Vector3f Qc :=
  mkVector3f (vy a * vz b - vz a * vy b)
             (vz a * vx b - vx a * vz b)
             (vx a * vy b - vy a * vx b).

(** A host over [Qc].  Transforms are static linear maps acting on
    vectors by the matrix product; the wavelength sampler is the one of an
    RGB variant (no wavelengths, unit weight on three channels); the masks
    pass through the macros unchanged, as in a packet variant; the ray
    epsilon is [1500 * 2^-24].  Square roots and trigonometry do not exist
    on [Qc]: [normalize], [coordinate_system], [sincos], [Pi] and the two
    warps are stand-ins, exact on the inputs the examples below evaluate
    them at (unit vectors, the centre [(1/2, 1/2)] of the unit square) and
    not used elsewhere. *)
#[export] Instance Host_Qc : Host Scalar_Qc := {
  Transform4f := Matrix3;
  AnimatedTransform := Matrix3;
  transform_identity := Matrix3_identity;
  transform_affine := Matrix3_apply;
  look_at := fun origin target up =>
    let dir := vsub target origin in
    let left := cross_Qc up dir in
    let new_up := cross_Qc dir left in
    Matrix3_of_columns left new_up dir;
  animated_new := fun t => t;
  animated_eval := fun t _ _ => t;
  normalize := fun v => v;
  cross := cross_Qc;
  coordinate_system := fun v =>
    (mkVector3f (vz v) (vx v) (vy v), mkVector3f (vy v) (vz v) (vx v));
  sample_wavelength := fun _ => (nil, (1 :: 1 :: 1 :: nil));
  square_to_uniform_hemisphere := fun _ => mkVector3f 0 0 1;
  square_to_uniform_disk_concentric := fun _ => mkPoint2f 0 0;
  sincos := fun _ => (1, 0);
  Pi := Q2Qc (355 # 113);
  RayEpsilon := Q2Qc (375 # 4194304);
  MTS_MASK_ARGUMENT := fun active => active;
  MTS_MASKED_FUNCTION := fun active => active;
  spectrum_channels := 3;
  default_film := mkFilm (768, 576)%Z (Q2Qc (1 # 2))
}.

Definition half2 : Point2f Qc := mkPoint2f (Q2Qc (1 # 2)) (Q2Qc (1 # 2)).

(** A shape no ray hits, and one every ray hits at the point [p]. *)
Definition shape_never_hit : Shape Qc :=
  mkShape (fun _ _ _ => mkPositionSample3f zero3 axis_z 1) 1
          (fun _ _ => mkSurfaceInteraction3f zero3 false).

Definition shape_hit_at (p : Point3f Qc) (pdf area : Qc) : Shape Qc :=
  mkShape (fun _ _ _ => mkPositionSample3f p axis_z pdf) area
          (fun _ _ => mkSurfaceInteraction3f p true).

(** A 1x1 sensor with the given strategies in front of the unit sphere. *)
Definition sensor (T : RayTargetType.t) (O : RayOriginType.t)
           (world : Matrix3) (flip : bool)
           (target origin : option (Shape Qc)) : DistantSensorImpl :=
  mkDistantSensorImpl T O world (mkFilm (1, 1)%Z (Q2Qc (1 # 2)))
    (mkBoundingSphere3f zero3 1) flip RayDirectionType.Single
    target (mkVector3f 1 1 1) origin.

(** The sensors, shapes and lanes of the examples. *)
Definition target_shape : Shape Qc :=
  shape_hit_at zero3 (Q2Qc (1 # 2)) (Q2Qc 4).

(** A shape hit by the rays of time below [1] only, at [(0, 0, 5)]. *)
Definition shape_hit_early : Shape Qc :=
  mkShape (fun _ _ _ => mkPositionSample3f zero3 axis_z 1) 1
          (fun r _ => mkSurfaceInteraction3f (mkVector3f 0 0 (Q2Qc 5))
                                             (Qc_ltb (ray_time r) 1)).

Definition lane_at (time : Qc) (active : Mask) : Lane :=
  mkLane time 0 half2 half2 active.

(** The rotation about the y axis by the angle of cosine 3/5 and sine
    4/5: it sends the local axis [(0, 0, 1)] to [(4/5, 0, 3/5)]. *)
Definition rotation_y_345 : Matrix3 :=
  mkMatrix3 (mkVector3f (Q2Qc (3 # 5)) 0 (Q2Qc (4 # 5)))
            (mkVector3f 0 1 0)
            (mkVector3f (Q2Qc (-4 # 5)) 0 (Q2Qc (3 # 5))).

Definition sensor_none_sphere : DistantSensorImpl :=
  sensor RayTargetType.None RayOriginType.BoundingSphere rotation_y_345
         false None None.
Definition sensor_none_miss : DistantSensorImpl :=
  sensor RayTargetType.None RayOriginType.Shape Matrix3_identity
         false None (Some shape_never_hit).
Definition sensor_shape_sphere : DistantSensorImpl :=
  sensor RayTargetType.Shape RayOriginType.BoundingSphere Matrix3_identity
         false (Some target_shape) None.
Definition sensor_shape_miss : DistantSensorImpl :=
  sensor RayTargetType.Shape RayOriginType.Shape Matrix3_identity
         false (Some target_shape) (Some shape_never_hit).
Definition sensor_point_early : DistantSensorImpl :=
  sensor RayTargetType.Point RayOriginType.Shape Matrix3_identity
         false None (Some shape_hit_early).
Definition sensor_point_sphere_flipped : DistantSensorImpl :=
  sensor RayTargetType.Point RayOriginType.BoundingSphere rotation_y_345
         true None None.

(** Configurations. *)
Definition props_to_world : gmap string PropValue :=
  {[ "to_world" := PTransform (rotation_y_345 : AnimatedTransform) ]}.
Definition props_to_world_oriented (v : Vector3f Qc)
  : gmap string PropValue :=
  <[ "orientation" := PVector3f v ]> props_to_world.
Definition props_direction (v : Vector3f Qc) : gmap string PropValue :=
  <[ "orientation" := PVector3f v ]>
    {[ "direction" := PVector3f (axis_z : Vector3f Qc) ]}.
Definition props_point : gmap string PropValue :=
  <[ "ray_target" := PPoint3f (mkVector3f 1 1 1 : Point3f Qc) ]>
    props_to_world.
Definition props_shapes : gmap string PropValue :=
  <[ "ray_target" := PObject (ObjShape target_shape) ]>
    (<[ "ray_origin" := PObject (ObjShape shape_hit_early) ]>
       (<[ "film" := PObject (ObjFilm (mkFilm (1, 1)%Z (Q2Qc (1 # 2)))) ]>
          props_to_world)).
Definition props_bad_target : gmap string PropValue :=
  <[ "ray_target" := PObject (ObjOther "bsdf") ]> props_to_world.
Definition props_bad_origin : gmap string PropValue :=
  <[ "ray_origin" := PBool true ]> props_to_world.
End QcModel.
Import QcModel.

(** Equalities and disequalities between closed terms over [Qc]. *)
Ltac qc_eq := repeat f_equal; apply Qc_is_canon; vm_compute; reflexivity.
Ltac qc_neq := vm_compute; let E := fresh in intros E; discriminate E.

(* ===================================================================== *)
(** ** Class names of the specialisations *)
(* ===================================================================== *)

(** Lines 459-477:
    [detail::distant_sensor_class_name<TargetType, OriginType>()], the name
    under which [DistantSensorImpl<..., TargetType, OriginType>] registers
    its [Class]. *)
Definition distant_sensor_class_name (T : RayTargetType.t)
           (O : RayOriginType.t) : string :=
  match T with
  | RayTargetType.Shape =>
      match O with
      | RayOriginType.Shape => "DistantSensor_Shape_Shape"
      | RayOriginType.BoundingSphere => "DistantSensor_Shape_BoundingSphere"
      end
  | RayTargetType.Point =>
      match O with
      | RayOriginType.Shape => "DistantSensor_Point_Shape"
      | RayOriginType.BoundingSphere => "DistantSensor_Point_BoundingSphere"
      end
  | RayTargetType.None =>
      match O with
      | RayOriginType.Shape => "DistantSensor_None_Shape"
      | RayOriginType.BoundingSphere => "DistantSensor_None_BoundingSphere"
      end
  end.

(** The name a tag is spelled with in the enumeration. *)
Definition target_tag_name (T : RayTargetType.t) : string :=
  match T with
  | RayTargetType.Shape => "Shape"
  | RayTargetType.Point => "Point"
  | RayTargetType.None => "None"
  end.

Definition origin_tag_name (O : RayOriginType.t) : string :=
  match O with
  | RayOriginType.Shape => "Shape"
  | RayOriginType.BoundingSphere => "BoundingSphere"
  end.

(* ===================================================================== *)
(** ** Further sensors and configurations over [Qc] *)
(* ===================================================================== *)

Module QcCases.
Local Open Scope Qc_scope.

(** Both [direction] and [to_world]. *)
Definition props_conflict : gmap string PropValue :=
  <[ "direction" := PVector3f (axis_z : Vector3f Qc) ]> props_to_world.

(** The sensor of [QcModel.sensor] with another direction mode. *)
Definition sensor_with_mode (mode : RayDirectionType.t) (T : RayTargetType.t)
           (O : RayOriginType.t) (world : Matrix3) (flip : bool)
           (target origin : option (Shape Qc)) : DistantSensorImpl :=
  mkDistantSensorImpl T O world (mkFilm (32, 1)%Z (Q2Qc (1 # 2)))
    (mkBoundingSphere3f zero3 1) flip mode
    target (mkVector3f 1 1 1) origin.

Definition sensor_sweep : DistantSensorImpl :=
  sensor_with_mode RayDirectionType.SampleWidth RayTargetType.Point
                   RayOriginType.BoundingSphere rotation_y_345 false None None.

Definition sensor_point_sphere : DistantSensorImpl :=
  sensor RayTargetType.Point RayOriginType.BoundingSphere rotation_y_345
         false None None.

(** A point scene and the unit-sphere scene centred at [(1, 0, 0)]. *)
Definition scene_point : Scene Qc :=
  mkScene (mkBoundingSphere3f zero3 0).
Definition scene_unit : Scene Qc :=
  mkScene (mkBoundingSphere3f (mkVector3f 1 0 0) 1).

(** The rotation about the z axis by the angle of cosine 3/5 and sine 4/5:
    it leaves the local axis [(0, 0, 1)] in place. *)
Definition rotation_z_345 : Matrix3 :=
  mkMatrix3 (mkVector3f (Q2Qc (3 # 5)) (Q2Qc (-4 # 5)) 0)
            (mkVector3f (Q2Qc (4 # 5)) (Q2Qc (3 # 5)) 0)
            (mkVector3f 0 0 1).

Definition sensor_none_about_z : DistantSensorImpl :=
  sensor RayTargetType.None RayOriginType.BoundingSphere rotation_z_345
         false None None.
End QcCases.
Import QcCases.

(* ===================================================================== *)
(** ** A scalar variant in binary64 *)
(* ===================================================================== *)

Module Binary64.
Local Open Scope float_scope.

(** [Float = double]: the IEEE 754 binary64 operations. *)
#[local] Instance Scalar_float : Scalar float := {
  f_zero := 0;
  f_one := 1;
  f_two := 2;
  f_half := 0.5;
  f_add := PrimFloat.add;
  f_sub := PrimFloat.sub;
  f_mul := PrimFloat.mul;
  f_div := PrimFloat.div;
  f_neg := PrimFloat.opp;
  f_rcp := fun x => 1 / x;
  f_ltb := PrimFloat.ltb
}.

Record Matrix3f : Type := mkMatrix3f {
  frow0 : Vector3f float;
  frow1 : Vector3f float;
  frow2 : Vector3f float
}.

Definition Matrix3f_identity : Matrix3f :=
  mkMatrix3f (mkVector3f 1 0 0) (mkVector3f 0 1 0) (mkVector3f 0 0 1).

Definition Matrix3f_apply (m : Matrix3f) (v : Vector3f float)
  : Vector3f float :=
  mkVector3f (dot (frow0 m) v) (dot (frow1 m) v) (dot (frow2 m) v).

Definition cross_float (a b : Vector3f float) : Vector3f float :=
  mkVector3f (vy a * vz b - vz a * vy b)
             (vz a * vx b - vx a * vz b)
             (vx a * vy b - vy a * vx b).

Definition normalize_float (v : Vector3f float) : Vector3f float :=
  let n := PrimFloat.sqrt (dot v v) in
  mkVector3f (vx v / n) (vy v / n) (vz v / n).

(** A host for a scalar RGB variant in double precision: the two mask
    macros force the mask on, as they do when [Float] is not an array; the
    ray epsilon is [1500 * 2^-53]; transforms are static linear maps.
    [coordinate_system], [sincos] and the two warps are stand-ins as in
    [QcModel.Host_Qc]. *)
#[local] Instance Host_float : Host Scalar_float := {
  Transform4f := Matrix3f;
  AnimatedTransform := Matrix3f;
  transform_identity := Matrix3f_identity;
  transform_affine := Matrix3f_apply;
  look_at := fun origin target up =>
    let dir := normalize_float (vsub target origin) in
    let left := normalize_float (cross_float up dir) in
    let new_up := cross_float dir left in
    mkMatrix3f (mkVector3f (vx left) (vx new_up) (vx dir))
               (mkVector3f (vy left) (vy new_up) (vy dir))
               (mkVector3f (vz left) (vz new_up) (vz dir));
  animated_new := fun t => t;
  animated_eval := fun t _ _ => t;
  normalize := normalize_float;
  cross := cross_float;
  coordinate_system := fun v =>
    (mkVector3f (vz v) (vx v) (vy v), mkVector3f (vy v) (vz v) (vx v));
  sample_wavelength := fun _ => (nil, (1 :: 1 :: 1 :: nil));
  square_to_uniform_hemisphere := fun _ => mkVector3f 0 0 1;
  square_to_uniform_disk_concentric := fun _ => mkPoint2f 0 0;
  sincos := fun _ => (1, 0);
  Pi := 0x1.921fb54442d18p+1;
  RayEpsilon := 1500 / 9007199254740992;
  MTS_MASK_ARGUMENT := fun _ => true;
  MTS_MASKED_FUNCTION := fun _ => true;
  spectrum_channels := 3;
  default_film := mkFilm (768, 576)%Z 0.5
}.

Definition fhalf2 : Point2f float := mkPoint2f 0.5 0.5.

(** A shape sampled at [p] with density [pdf], of area [area], that every
    ray hits at [p]. *)
Definition fshape (p : Point3f float) (pdf area : float) : Shape float :=
  mkShape (fun _ _ _ => mkPositionSample3f p axis_z pdf) area
          (fun _ _ => mkSurfaceInteraction3f p true).

(** A 1x1 sensor in front of the unit sphere, with the identity as world
    transform. *)
Definition fsensor (T : RayTargetType.t) (O : RayOriginType.t)
           (target origin : option (Shape float)) : DistantSensorImpl :=
  mkDistantSensorImpl T O Matrix3f_identity (mkFilm (1, 1)%Z 0.5)
    (mkBoundingSphere3f zero3 1) false RayDirectionType.Single
    target (mkVector3f 1 1 1) origin.

(** Its target shape has density [3] and area [11]. *)
Definition fsensor_shape_sphere : DistantSensorImpl :=
  fsensor RayTargetType.Shape RayOriginType.BoundingSphere
          (Some (fshape zero3 3 11)) None.

Definition fsensor_point_sphere : DistantSensorImpl :=
  fsensor RayTargetType.Point RayOriginType.BoundingSphere None None.

(** Whether the first channel of [w] is the float [c]. *)
Definition first_channel_is (c : float) (w : Spectrum float) : bool :=
  match w with
  | x :: _ => PrimFloat.eqb x c
  | nil => false
  end.
End Binary64.
Import Binary64.

(* ===================================================================== *)
(** ** Properties of the generator: helper lemmas *)
(* ===================================================================== *)

Section GeneratorLemmas.
Context {F : Type} {SF : Scalar F} {HF : Host SF}.

Lemma sample_ray_impl_locals_Ray3f (s : DistantSensorImpl) time ws fs aps active :
  sample_ray_impl_locals (R := Ray3f F) s time ws fs aps active =
  (let a := MTS_MASK_ARGUMENT active in
   let trafo := animated_eval (m_world_transform s) time a in
   let d := world_direction s trafo fs in
   '(ray_target, ray_weight) ←
     sample_target s trafo time aps a (snd (sample_wavelength ws)) d;
   '(o, a') ← place_origin s time ray_target d a;
   Some (mkLocals
           (mkRay3f o d zero3 time (fst (sample_wavelength ws)))
           ray_weight ray_target a')).
Proof.
  unfold sample_ray_impl_locals.
  destruct (sample_wavelength ws) as [wl ww]; reflexivity.
Qed.

(** [sample_ray], one step at a time. *)
Lemma sample_ray_unfold (s : DistantSensorImpl) time ws fs aps active :
  sample_ray s time ws fs aps active =
  (let d := lane_direction s time fs active in
   '(ray_target, ray_weight) ← lane_target s time ws fs aps active;
   '(o, a') ← place_origin s time ray_target d (lane_mask active);
   Some (mkRay3f o d (vrcp d) time (fst (sample_wavelength ws)),
         mask_and (mask_and ray_weight a') (MTS_MASKED_FUNCTION active))).
Proof.
  unfold sample_ray, sample_ray_impl.
  rewrite sample_ray_impl_locals_Ray3f.
  unfold lane_target, lane_direction, lane_trafo, lane_mask. cbn zeta.
  destruct (sample_target _ _ _ _ _ _ _) as [[tgt w]|]; [|reflexivity].
  cbn.
  destruct (place_origin _ _ _ _ _) as [[o a']|]; reflexivity.
Qed.

Lemma sample_valid_unfold (s : DistantSensorImpl) time ws fs aps active :
  sample_valid s time ws fs aps active =
  ('(ray_target, _) ← lane_target s time ws fs aps active;
   '(_, a') ← place_origin s time ray_target
                           (lane_direction s time fs active)
                           (lane_mask active);
   Some (a' && MTS_MASKED_FUNCTION active)).
Proof.
  unfold sample_valid.
  rewrite sample_ray_impl_locals_Ray3f.
  unfold lane_target, lane_direction, lane_trafo, lane_mask. cbn zeta.
  destruct (sample_target _ _ _ _ _ _ _) as [[tgt w]|]; [|reflexivity].
  cbn.
  destruct (place_origin _ _ _ _ _) as [[o a']|]; reflexivity.
Qed.

Lemma mask_and_true (w : Spectrum F) : mask_and w true = w.
Proof. reflexivity. Qed.

Lemma mask_and_false_zero (w : Spectrum F) : spectrum_is_zero (mask_and w false).
Proof.
  unfold spectrum_is_zero, mask_and.
  induction w as [|c w IH]; constructor; [reflexivity | exact IH].
Qed.

Lemma mask_and_zero (w : Spectrum F) (a : Mask) :
  spectrum_is_zero w -> spectrum_is_zero (mask_and w a).
Proof. destruct a; [trivial | intros _; apply mask_and_false_zero]. Qed.

Lemma mask_and_twice_false (w : Spectrum F) (a b : Mask) :
  a && b = false -> spectrum_is_zero (mask_and (mask_and w a) b).
Proof.
  destruct b.
  - rewrite andb_true_r. intros ->. apply mask_and_false_zero.
  - intros _. apply mask_and_false_zero.
Qed.

(** A well-formed sensor dereferences no null shape. *)
Lemma lane_target_total (s : DistantSensorImpl) time ws fs aps active :
  well_formed s -> is_Some (lane_target s time ws fs aps active).
Proof.
  intros [Ht _]. unfold lane_target, sample_target.
  destruct (TargetType s) eqn:E; cbn; eauto.
  destruct (Ht eq_refl) as [sh ->]. cbn. eauto.
Qed.

Lemma place_origin_total (s : DistantSensorImpl) time tgt d a :
  well_formed s -> is_Some (place_origin s time tgt d a).
Proof.
  intros [_ Ho]. unfold place_origin.
  destruct (OriginType s) eqn:E.
  - destruct (Ho eq_refl) as [sh ->]. cbn. eauto.
  - destruct (TargetType s); eauto.
Qed.

Lemma sample_ray_total (s : DistantSensorImpl) time ws fs aps active :
  well_formed s -> is_Some (sample_ray s time ws fs aps active).
Proof.
  intros Hwf. rewrite sample_ray_unfold. cbn zeta.
  destruct (lane_target_total time ws fs aps active Hwf) as [[tgt w] ->]. cbn.
  destruct (place_origin_total time tgt (lane_direction s time fs active)
              (lane_mask active) Hwf) as [[o a'] ->].
  cbn. eauto.
Qed.

(** The result of [sample_ray] once the target and the origin are known. *)
Lemma sample_ray_result (s : DistantSensorImpl) time ws fs aps active
      tgt W o a' :
  lane_target s time ws fs aps active = Some (tgt, W) ->
  place_origin s time tgt (lane_direction s time fs active)
               (lane_mask active) = Some (o, a') ->
  sample_ray s time ws fs aps active =
    Some (mkRay3f o (lane_direction s time fs active)
                  (vrcp (lane_direction s time fs active)) time
                  (fst (sample_wavelength ws)),
          mask_and (mask_and W a') (MTS_MASKED_FUNCTION active)) /\
  sample_valid s time ws fs aps active =
    Some (a' && MTS_MASKED_FUNCTION active).
Proof.
  intros Ht Ho. rewrite sample_ray_unfold, sample_valid_unfold. cbn zeta.
  rewrite Ht. cbn. rewrite Ho. cbn. split; reflexivity.
Qed.

Lemma mask_and_twice_true (w : Spectrum F) (a b : Mask) :
  a && b = true -> mask_and (mask_and w a) b = w.
Proof. intros [-> ->]%andb_true_iff. reflexivity. Qed.
End GeneratorLemmas.

(* ===================================================================== *)
(** ** Ray generation: weights, origins, directions *)
(* ===================================================================== *)

Section Generator.
Context {F : Type} {SF : Scalar F} {HF : Host SF}.

(** C1, as amended.  Under the [None] target specification every call on
    a well-formed sensor returns.  When the sample is valid (its mask is
    still set at the end: the lane was active and, with a [Shape] origin,
    the probe ray hit) and the world transform leaves the local axis
    [(0,0,1)] in place, the returned weight is the spectral weight divided
    by cos(theta), the dot product of the negated ray direction with the
    sensor axis (the local axis [(0,0,1)] carried to world space).  When
    the sample is not valid, the returned weight is zero on every channel.
    Nothing is stated here about a valid sample under a transform that
    moves the axis. *)
Theorem none_target_weight (s : DistantSensorImpl) time ws fs aps active :
  TargetType s = RayTargetType.None ->
  well_formed s ->
  exists ray w valid,
    sample_ray s time ws fs aps active = Some (ray, w) /\
    sample_valid s time ws fs aps active = Some valid /\
    ray_d ray = lane_direction s time fs active /\
    (valid = true ->
     transform_affine (lane_trafo s time active) axis_z = axis_z ->
     w = spectrum_div
           (snd (sample_wavelength ws))
           (dot (vneg (ray_d ray))
                (transform_affine (lane_trafo s time active) axis_z))) /\
    (valid = false -> spectrum_is_zero w).
Proof.
  intros HT Hwf.
  set (d := lane_direction s time fs active).
  assert (Ht : exists tgt,
             lane_target s time ws fs aps active =
             Some (tgt, spectrum_div (snd (sample_wavelength ws))
                                     (dot (vneg d) axis_z))).
  { unfold lane_target, sample_target. rewrite HT. eauto. }
  destruct Ht as [tgt Ht].
  destruct (place_origin_total time tgt d (lane_mask active) Hwf)
    as [[o a'] Ho].
  edestruct sample_ray_result as [Hr Hv]; [exact Ht | exact Ho |].
  eexists _, _, _. split; [exact Hr|]. split; [exact Hv|].
  split; [reflexivity|]. cbn [ray_d]. split.
  - intros Hval Haxis. rewrite Haxis. apply mask_and_twice_true, Hval.
  - intros Hval. apply mask_and_twice_false, Hval.
Qed.
End Generator.

(** C1, witness: a 1x1 sensor without target, bounding-sphere origin, turned
    about its own axis by [rotation_z_345]; the sample is valid and the
    axis stays in place. *)
Lemma none_target_weight_witness :
  exists ray w,
    sample_ray sensor_none_about_z 0%Qc 0%Qc half2 half2 true =
      Some (ray, w) /\
    w = spectrum_div
          (snd (sample_wavelength 0%Qc))
          (dot (vneg (ray_d ray))
               (transform_affine (lane_trafo sensor_none_about_z 0%Qc true)
                                 axis_z)).
Proof.
  destruct (@none_target_weight Qc Scalar_Qc Host_Qc sensor_none_about_z
              0%Qc 0%Qc half2 half2 true)
    as (ray & w & valid & Hr & Hv & _ & Hw & _).
  - reflexivity.
  - split; intros E; discriminate E.
  - exists ray, w. split; [exact Hr|]. apply Hw.
    + vm_compute in Hv. injection Hv as <-. reflexivity.
    + unfold lane_trafo, sensor_none_about_z, sensor. cbn.
      unfold Matrix3_apply, axis_z. qc_eq.
Defined.

(** C1, counterexample to the claim as stated, on two lanes without
    target.  On the first the probe ray misses the origin shape: the
    spectral weight is [1] and the divisor is [1], but the returned weight
    is [0].  On the second the sample is valid and the world transform is
    [rotation_y_345]: the ray runs along the sensor axis, so the cosine
    between them is [1], but the returned weight is [5/3]. *)
Lemma none_target_weight_counterexample :
  (exists ray w,
      TargetType sensor_none_miss = RayTargetType.None /\
      sample_ray sensor_none_miss
                 0%Qc 0%Qc half2 half2 true = Some (ray, w) /\
      w <> spectrum_div (snd (sample_wavelength 0%Qc))
                        (dot (vneg (ray_d ray)) axis_z)) /\
  (exists ray w,
      TargetType sensor_none_sphere = RayTargetType.None /\
      sample_ray sensor_none_sphere
                 0%Qc 0%Qc half2 half2 true = Some (ray, w) /\
      sample_valid sensor_none_sphere
                   0%Qc 0%Qc half2 half2 true = Some true /\
      w <> spectrum_div
             (snd (sample_wavelength 0%Qc))
             (dot (vneg (ray_d ray))
                  (transform_affine (lane_trafo sensor_none_sphere 0%Qc true)
                                    axis_z))).
Proof.
  split.
  - eexists _, _. split; [reflexivity|]. split; [reflexivity|]. qc_neq.
  - eexists _, _. split; [reflexivity|]. split; [reflexivity|].
    split; [reflexivity|]. qc_neq.
Qed.

(** The divisor of C1 is taken against the untransformed vector [(0,0,1)].
    Under [rotation_y_345] the ray of a 1x1 sensor runs along the sensor
    axis (cosine [1] with the transformed axis), the divisor is [3/5] and
    the weight [5/3]. *)
Example none_target_divisor_under_rotation :
  exists ray w,
    sample_ray sensor_none_sphere
               0%Qc 0%Qc half2 half2 true = Some (ray, w) /\
    dot (vneg (ray_d ray))
        (transform_affine rotation_y_345 axis_z) = 1%Qc /\
    dot (vneg (ray_d ray)) axis_z = Q2Qc (3 # 5) /\
    w = [Q2Qc (5 # 3); Q2Qc (5 # 3); Q2Qc (5 # 3)].
Proof.
  eexists _, _. split; [reflexivity|].
  split; [qc_eq|]. split; qc_eq.
Qed.

Section GeneratorShapeTarget.
Context {F : Type} {SF : Scalar F} {HF : Host SF}.

(** C7, as amended.  Under the [Shape] target specification every call on
    a well-formed sensor returns.  When the sample is valid the returned
    weight is the spectral weight divided by the position density and then
    by the surface area of the target shape, two successive divisions; in
    an arithmetic where [(a / b) / c = a / (b * c)] this is the spectral
    weight divided by the product of the two.  When the sample is not
    valid the weight is zero.  The target step does not depend on the ray
    direction, so no cosine against it enters the weight. *)
Theorem shape_target_weight (s : DistantSensorImpl) (sh : Shape F)
        time ws fs aps active :
  TargetType s = RayTargetType.Shape ->
  m_ray_target_shape s = Some sh ->
  well_formed s ->
  exists ray w valid,
    sample_ray s time ws fs aps active = Some (ray, w) /\
    sample_valid s time ws fs aps active = Some valid /\
    (valid = true ->
     w = spectrum_div
           (spectrum_div
              (snd (sample_wavelength ws))
              (ps_pdf (sample_position sh time aps (lane_mask active))))
           (surface_area sh)) /\
    (valid = true ->
     (forall a b c : F, f_div (f_div a b) c = f_div a (f_mul b c)) ->
     w = spectrum_div
           (snd (sample_wavelength ws))
           (f_mul (ps_pdf (sample_position sh time aps (lane_mask active)))
                  (surface_area sh))) /\
    (valid = false -> spectrum_is_zero w) /\
    (forall trafo a wv d d',
        sample_target s trafo time aps a wv d =
        sample_target s trafo time aps a wv d').
Proof.
  intros HT Hsh Hwf.
  set (ps := sample_position sh time aps (lane_mask active)).
  assert (Ht : lane_target s time ws fs aps active =
               Some (ps_p ps,
                     spectrum_div
                       (spectrum_div (snd (sample_wavelength ws)) (ps_pdf ps))
                       (surface_area sh))).
  { unfold lane_target, sample_target. rewrite HT, Hsh. reflexivity. }
  destruct (place_origin_total time (ps_p ps)
              (lane_direction s time fs active) (lane_mask active) Hwf)
    as [[o a'] Ho].
  edestruct sample_ray_result as [Hr Hv]; [exact Ht | exact Ho |].
  eexists _, _, _. split; [exact Hr|]. split; [exact Hv|].
  split; [|split; [|split]].
  - apply mask_and_twice_true.
  - intros Hval Hdiv. rewrite (mask_and_twice_true _ _ _ Hval).
    unfold spectrum_div. rewrite List.map_map.
    apply List.map_ext. intros c. apply Hdiv.
  - apply mask_and_twice_false.
  - intros trafo a wv d d'. unfold sample_target. rewrite HT. reflexivity.
Qed.
End GeneratorShapeTarget.

Lemma Qc_div_div (a b c : Qc) : (a / b / c = a / (b * c))%Qc.
Proof.
  unfold Qcdiv. rewrite Qcinv_mult_distr, Qcmult_assoc. reflexivity.
Qed.

(** C7, witness: the target shape has density 1/2 and area 4; the sample
    is valid, and over [Qc] the two successive divisions are the division
    by the product. *)
Lemma shape_target_weight_witness :
  exists ray w,
    sample_ray sensor_shape_sphere
               0%Qc 0%Qc half2 half2 true = Some (ray, w) /\
    w = spectrum_div
          (spectrum_div (snd (sample_wavelength 0%Qc)) (Q2Qc (1 # 2)))
          (Q2Qc 4) /\
    w = spectrum_div (snd (sample_wavelength 0%Qc))
                     (f_mul (Q2Qc (1 # 2)) (Q2Qc 4)).
Proof.
  destruct (@shape_target_weight Qc Scalar_Qc Host_Qc sensor_shape_sphere
              target_shape 0%Qc 0%Qc half2 half2 true)
    as (ray & w & valid & Hr & Hv & Hw & Hp & _).
  - reflexivity.
  - reflexivity.
  - split; intros E; [eexists; reflexivity | discriminate E].
  - assert (Hvalid : valid = true)
      by (vm_compute in Hv; injection Hv as <-; reflexivity).
    exists ray, w. split; [exact Hr|]. split.
    + exact (Hw Hvalid).
    + exact (Hp Hvalid Qc_div_div).
Defined.

(** C7, counterexample to the claim as stated, on two lanes aimed at a
    shape.  Over [Qc], with density 1/2 and area 4, the probe ray misses
    the origin shape: the spectral weight over density times area is
    [1 / (1/2 * 4) = 1/2]; the returned weight is [0].  In binary64, with
    density 3 and area 11, the sample is valid: the returned weight
    [(1 / 3) / 11] is not the spectral weight over the product,
    [1 / (3 * 11)]. *)
Lemma shape_target_weight_counterexample :
  (exists ray w,
      TargetType sensor_shape_miss = RayTargetType.Shape /\
      sample_ray sensor_shape_miss
                 0%Qc 0%Qc half2 half2 true = Some (ray, w) /\
      w <> spectrum_div (snd (sample_wavelength 0%Qc))
                        (f_mul (Q2Qc (1 # 2)) (Q2Qc 4))) /\
  (exists ray w,
      TargetType fsensor_shape_sphere = RayTargetType.Shape /\
      sample_ray fsensor_shape_sphere
                 0%float 0%float fhalf2 fhalf2 true = Some (ray, w) /\
      sample_valid fsensor_shape_sphere
                   0%float 0%float fhalf2 fhalf2 true = Some true /\
      w <> @spectrum_div float Scalar_float
             (snd (@sample_wavelength float Scalar_float Host_float 0%float))
             (@f_mul float Scalar_float 3%float 11%float)).
Proof.
  split.
  - eexists _, _. split; [reflexivity|]. split; [reflexivity|]. qc_neq.
  - eexists _, _. split; [reflexivity|]. split; [reflexivity|].
    split; [reflexivity|]. intros E.
    apply (f_equal (first_channel_is (1 / (3 * 11))%float)) in E.
    vm_compute in E. discriminate E.
Qed.

(** The returned weight there, channel by channel. *)
Example shape_target_weight_binary64 :
  exists ray w,
    sample_ray fsensor_shape_sphere
               0%float 0%float fhalf2 fhalf2 true = Some (ray, w) /\
    w = [(1 / 3 / 11)%float; (1 / 3 / 11)%float; (1 / 3 / 11)%float] /\
    PrimFloat.eqb (1 / 3 / 11)%float (1 / (3 * 11))%float = false.
Proof.
  eexists _, _. split; [reflexivity|]. split; reflexivity.
Qed.

Section GeneratorOrigin.
Context {F : Type} {SF : Scalar F} {HF : Host SF}.

Lemma sample_ray_packet_lookup (s : DistantSensorImpl) (lanes : list Lane)
      (i : nat) :
  sample_ray_packet s lanes !! i =
  (fun l => sample_ray s (lane_time l) (lane_wavelength_sample l)
              (lane_film_sample l) (lane_aperture_sample l) (lane_active l))
  <$> (lanes !! i).
Proof. unfold sample_ray_packet. apply list_lookup_fmap. Qed.

Lemma sample_ray_packet_total (s : DistantSensorImpl) (lanes : list Lane) :
  well_formed s -> Forall is_Some (sample_ray_packet s lanes).
Proof.
  intros Hwf. unfold sample_ray_packet.
  induction lanes as [|l lanes IH]; cbn; constructor.
  - apply sample_ray_total, Hwf.
  - exact IH.
Qed.

(** C3.  With a [Shape] origin, a lane of a packet whose probe ray (from
    the target point, along the negated ray direction) misses the origin
    shape is returned with a mask that is not set and a weight that is
    zero on every channel; every lane of the packet returns; and replacing
    that lane by any other leaves the results of the other lanes as they
    are. *)
Theorem shape_origin_miss (s : DistantSensorImpl) (sh : Shape F)
        (lanes : list Lane) (i : nat) (l : Lane) tgt W :
  well_formed s ->
  OriginType s = RayOriginType.Shape ->
  m_ray_origin_shape s = Some sh ->
  lanes !! i = Some l ->
  lane_target s (lane_time l) (lane_wavelength_sample l)
              (lane_film_sample l) (lane_aperture_sample l)
              (lane_active l) = Some (tgt, W) ->
  si_is_valid
    (ray_intersect sh
       (probe_ray tgt
          (lane_direction s (lane_time l) (lane_film_sample l)
                          (lane_active l))
          (lane_time l))
       (lane_mask (lane_active l))) = false ->
  (exists ray w,
      sample_ray_packet s lanes !! i = Some (Some (ray, w)) /\
      spectrum_is_zero w) /\
  sample_valid s (lane_time l) (lane_wavelength_sample l)
               (lane_film_sample l) (lane_aperture_sample l)
               (lane_active l) = Some false /\
  Forall is_Some (sample_ray_packet s lanes) /\
  (forall (l' : Lane) (j : nat),
      j <> i ->
      sample_ray_packet s (<[i := l']> lanes) !! j =
      sample_ray_packet s lanes !! j).
Proof.
  intros Hwf HO Hsh Hl Ht Hmiss.
  assert (Ho : place_origin s (lane_time l) tgt
                 (lane_direction s (lane_time l) (lane_film_sample l)
                                 (lane_active l))
                 (lane_mask (lane_active l)) =
               Some (si_p (ray_intersect sh
                       (probe_ray tgt
                          (lane_direction s (lane_time l)
                             (lane_film_sample l) (lane_active l))
                          (lane_time l))
                       (lane_mask (lane_active l))),
                     false)).
  { unfold place_origin. rewrite HO, Hsh. cbn.
    unfold probe_ray in Hmiss. rewrite Hmiss, andb_false_r. reflexivity. }
  edestruct sample_ray_result as [Hr Hv]; [exact Ht | exact Ho |].
  split; [|split; [|split]].
  - eexists _, _. split.
    + rewrite sample_ray_packet_lookup, Hl. cbn. rewrite Hr. reflexivity.
    + apply mask_and_twice_false. reflexivity.
  - exact Hv.
  - apply sample_ray_packet_total, Hwf.
  - intros l' j Hj. rewrite !sample_ray_packet_lookup.
    rewrite list_lookup_insert_ne by congruence. reflexivity.
Qed.

(** C2.  With a [BoundingSphere] origin every call on a well-formed sensor
    returns a ray whose origin is [target - d * (k * radius)], where [d]
    is the ray direction, [radius] the stored radius and [k] is [1] under
    the [None] target and [2] under [Point] and [Shape] (in an arithmetic
    where [(a * 2) * c = a * (2 * c)] and [1 * a = a]); the mask
    leaves the step as it entered it; and the result does not depend on
    the origin shape, which is never queried. *)
Theorem bounding_sphere_origin (s : DistantSensorImpl)
        time ws fs aps active :
  (forall a c : F, f_mul (f_mul a f_two) c = f_mul a (f_mul f_two c)) ->
  (forall a : F, f_mul f_one a = a) ->
  OriginType s = RayOriginType.BoundingSphere ->
  well_formed s ->
  exists ray w tgt W,
    sample_ray s time ws fs aps active = Some (ray, w) /\
    lane_target s time ws fs aps active = Some (tgt, W) /\
    ray_o ray =
      vsub tgt
           (vscale (ray_d ray)
                   (f_mul (match TargetType s with
                           | RayTargetType.None => f_one
                           | _ => f_two
                           end)
                          (radius (m_bsphere s)))) /\
    sample_valid s time ws fs aps active =
      Some (lane_mask active && MTS_MASKED_FUNCTION active) /\
    (forall sh',
        sample_ray (with_ray_origin_shape s sh') time ws fs aps active =
        sample_ray s time ws fs aps active).
Proof.
  intros Hassoc Hone HO Hwf.
  destruct (lane_target_total time ws fs aps active Hwf) as [[tgt W] Ht].
  set (d := lane_direction s time fs active).
  set (k := match TargetType s with
            | RayTargetType.None => f_one
            | _ => f_two
            end).
  assert (Ho : place_origin s time tgt d (lane_mask active) =
               Some (vsub tgt (vscale d (f_mul k (radius (m_bsphere s)))),
                     lane_mask active)).
  { unfold place_origin, k, vscale. rewrite HO.
    destruct (TargetType s); cbn; rewrite ?Hassoc, ?Hone; reflexivity. }
  edestruct sample_ray_result as [Hr Hv]; [exact Ht | exact Ho |].
  eexists _, _, _, _. split; [exact Hr|]. split; [exact Ht|].
  split; [reflexivity|]. split; [exact Hv|].
  intros sh'. rewrite !sample_ray_unfold. cbn zeta.
  change (lane_target (with_ray_origin_shape s sh') time ws fs aps active)
    with (lane_target s time ws fs aps active).
  change (lane_direction (with_ray_origin_shape s sh') time fs active)
    with (lane_direction s time fs active).
  rewrite Ht. cbn.
  replace (place_origin (with_ray_origin_shape s sh') time tgt
             (lane_direction s time fs active) (lane_mask active))
    with (place_origin s time tgt (lane_direction s time fs active)
            (lane_mask active)); [reflexivity|].
  unfold place_origin. cbn. rewrite HO. reflexivity.
Qed.

(** C6.  In [Single] mode every call on a well-formed sensor returns a ray
    whose direction is the world transform (evaluated at the time of the
    sample) applied to [-(0,0,1)] when [m_flip_directions] is false and to
    [(0,0,1)] when it is true; the direction is the same for every film
    sample. *)
Theorem single_mode_direction (s : DistantSensorImpl)
        time ws fs aps active :
  m_direction_type s = RayDirectionType.Single ->
  well_formed s ->
  exists ray w,
    sample_ray s time ws fs aps active = Some (ray, w) /\
    ray_d ray =
      transform_affine (lane_trafo s time active)
                       (if m_flip_directions s then axis_z
                        else vneg axis_z) /\
    (forall fs', exists ray' w',
        sample_ray s time ws fs' aps active = Some (ray', w') /\
        ray_d ray' = ray_d ray).
Proof.
  intros Hmode Hwf.
  assert (Hd : forall fs0,
             lane_direction s time fs0 active =
             transform_affine (lane_trafo s time active)
                              (if m_flip_directions s then axis_z
                               else vneg axis_z)).
  { intros fs0. unfold lane_direction, world_direction, local_direction.
    rewrite Hmode. destruct (m_flip_directions s); reflexivity. }
  assert (Hall : forall fs0, exists ray0 w0,
             sample_ray s time ws fs0 aps active = Some (ray0, w0) /\
             ray_d ray0 = lane_direction s time fs0 active).
  { intros fs0.
    destruct (lane_target_total time ws fs0 aps active Hwf) as [[tgt W] Ht].
    destruct (place_origin_total time tgt (lane_direction s time fs0 active)
                (lane_mask active) Hwf) as [[o a'] Ho].
    edestruct sample_ray_result as [Hr _]; [exact Ht | exact Ho |].
    eexists _, _. split; [exact Hr | reflexivity]. }
  destruct (Hall fs) as (ray & w & Hr & Hrd).
  exists ray, w. split; [exact Hr|]. split.
  - rewrite Hrd. apply Hd.
  - intros fs'. destruct (Hall fs') as (ray' & w' & Hr' & Hrd').
    exists ray', w'. split; [exact Hr'|].
    rewrite Hrd', Hrd, !Hd. reflexivity.
Qed.
End GeneratorOrigin.

Lemma Qc_mul_assoc (a b c : Qc) : (a * b * c = a * (b * c))%Qc.
Proof. symmetry. apply Qcmult_assoc. Qed.

Lemma well_formed_sensor T O world flip (sh_t sh_o : Shape Qc) :
  well_formed (QcModel.sensor T O world flip (Some sh_t) (Some sh_o)).
Proof. split; intros _; eexists; reflexivity. Qed.

(** C3, witness: a packet of two lanes on a sensor aimed at the point
    [(1, 1, 1)] whose origin shape is hit at time [0] and missed at time
    [2]; the second lane is the missing one. *)
Lemma shape_origin_miss_witness :
  (exists ray w,
      sample_ray_packet sensor_point_early
                        [lane_at 0%Qc true; lane_at (Q2Qc 2) true] !! 1%nat =
      Some (Some (ray, w)) /\
      spectrum_is_zero w) /\
  sample_valid sensor_point_early (Q2Qc 2) 0%Qc half2 half2 true =
    Some false /\
  Forall is_Some (sample_ray_packet sensor_point_early
                    [lane_at 0%Qc true; lane_at (Q2Qc 2) true]) /\
  (forall (l' : Lane) (j : nat),
      j <> 1%nat ->
      sample_ray_packet sensor_point_early
        (<[1%nat := l']> [lane_at 0%Qc true; lane_at (Q2Qc 2) true]) !! j =
      sample_ray_packet sensor_point_early
        [lane_at 0%Qc true; lane_at (Q2Qc 2) true] !! j).
Proof.
  apply (@shape_origin_miss Qc _ _ sensor_point_early shape_hit_early
           [lane_at 0%Qc true; lane_at (Q2Qc 2) true] 1%nat
           (lane_at (Q2Qc 2) true)
           (mkVector3f 1%Qc 1%Qc 1%Qc) [1%Qc; 1%Qc; 1%Qc]).
  - split; intros E; [discriminate E | eexists; reflexivity].
  - reflexivity.
  - reflexivity.
  - reflexivity.
  - reflexivity.
  - vm_compute. reflexivity.
Defined.

(** In that packet the first lane keeps its weight and the second loses
    it. *)
Example packet_partial_validity :
  List.map (option_map (@snd (Ray3f Qc) (Spectrum Qc)))
           (sample_ray_packet sensor_point_early
                              [lane_at 0%Qc true; lane_at (Q2Qc 2) true]) =
  [Some [1%Qc; 1%Qc; 1%Qc]; Some [0%Qc; 0%Qc; 0%Qc]].
Proof. vm_compute. reflexivity. Qed.

(** C2, witness: a sensor aimed at a point, so that [k = 2]. *)
Lemma bounding_sphere_origin_witness :
  exists ray w tgt W,
    sample_ray sensor_point_sphere_flipped 0%Qc 0%Qc half2 half2 true =
      Some (ray, w) /\
    lane_target sensor_point_sphere_flipped 0%Qc 0%Qc half2 half2 true =
      Some (tgt, W) /\
    ray_o ray =
      vsub tgt
           (vscale (ray_d ray)
                   (f_mul (match TargetType sensor_point_sphere_flipped with
                           | RayTargetType.None => f_one
                           | _ => f_two
                           end)
                          (radius (m_bsphere sensor_point_sphere_flipped)))) /\
    sample_valid sensor_point_sphere_flipped 0%Qc 0%Qc half2 half2 true =
      Some (lane_mask true && MTS_MASKED_FUNCTION true) /\
    (forall sh',
        sample_ray (with_ray_origin_shape sensor_point_sphere_flipped sh')
                   0%Qc 0%Qc half2 half2 true =
        sample_ray sensor_point_sphere_flipped 0%Qc 0%Qc half2 half2 true).
Proof.
  apply bounding_sphere_origin.
  - intros a c. apply Qc_mul_assoc.
  - exact Qcmult_1_l.
  - reflexivity.
  - split; intros E; discriminate E.
Defined.

(** The origin of that ray: [(1,1,1) - (4/5, 0, 3/5) * 2]. *)
Example bounding_sphere_origin_value :
  option_map (fun r : Ray3f Qc * Spectrum Qc => ray_o (fst r))
             (sample_ray sensor_point_sphere_flipped 0%Qc 0%Qc half2 half2
                         true) =
  Some (mkVector3f (Q2Qc (-3 # 5)) 1%Qc (Q2Qc (-1 # 5))).
Proof. cbn. qc_eq. Qed.

(** C6, witness: the same sensor, whose directions are flipped. *)
Lemma single_mode_direction_witness :
  exists ray w,
    sample_ray sensor_point_sphere_flipped 0%Qc 0%Qc half2 half2 true =
      Some (ray, w) /\
    ray_d ray =
      transform_affine (lane_trafo sensor_point_sphere_flipped 0%Qc true)
                       (if m_flip_directions sensor_point_sphere_flipped
                        then axis_z else vneg axis_z) /\
    (forall fs', exists ray' w',
        sample_ray sensor_point_sphere_flipped 0%Qc 0%Qc fs' half2 true =
          Some (ray', w') /\
        ray_d ray' = ray_d ray).
Proof.
  apply single_mode_direction.
  - reflexivity.
  - split; intros E; discriminate E.
Defined.

(* ===================================================================== *)
(** ** The two entry points *)
(* ===================================================================== *)

Section EntryPoints.
Context {F : Type} {SF : Scalar F} {HF : Host SF}.

Lemma sample_ray_differential_unfold (s : DistantSensorImpl)
      time ws fs aps active :
  sample_ray_differential s time ws fs aps active =
  (let d := lane_direction s time fs active in
   '(ray_target, ray_weight) ← lane_target s time ws fs aps active;
   '(o, a') ← place_origin s time ray_target d (lane_mask active);
   Some (mkRayDifferential3f
           (mkRay3f o d (vrcp d) time (fst (sample_wavelength ws)))
           zero3 zero3 zero3 zero3 false,
         mask_and (mask_and ray_weight a') (MTS_MASKED_FUNCTION active))).
Proof.
  unfold sample_ray_differential, sample_ray_impl, sample_ray_impl_locals.
  unfold lane_target, lane_direction, lane_trafo, lane_mask. cbn zeta.
  destruct (sample_wavelength ws) as [wl ww]. cbn.
  destruct (sample_target _ _ _ _ _ _ _) as [[tgt w]|]; [|reflexivity].
  cbn.
  destruct (place_origin _ _ _ _ _) as [[o a']|]; reflexivity.
Qed.

(** C9.  On the same sensor and the same arguments (time, wavelength
    sample, film sample, aperture sample, mask), [sample_ray] and
    [sample_ray_differential] both return, the two rays have the same
    origin, direction, time and wavelengths, the two weights are equal,
    and the differential ray has [has_differentials = false]. *)
Theorem sample_ray_differential_agrees (s : DistantSensorImpl)
        time ws fs aps active :
  well_formed s ->
  exists ray w rayd,
    sample_ray s time ws fs aps active = Some (ray, w) /\
    sample_ray_differential s time ws fs aps active = Some (rayd, w) /\
    ray_o (rd_ray rayd) = ray_o ray /\
    ray_d (rd_ray rayd) = ray_d ray /\
    ray_time (rd_ray rayd) = ray_time ray /\
    ray_wavelengths (rd_ray rayd) = ray_wavelengths ray /\
    has_differentials rayd = false.
Proof.
  intros Hwf.
  rewrite sample_ray_unfold, sample_ray_differential_unfold. cbn zeta.
  destruct (lane_target_total time ws fs aps active Hwf) as [[tgt W] ->].
  cbn.
  destruct (place_origin_total time tgt (lane_direction s time fs active)
              (lane_mask active) Hwf) as [[o a'] ->].
  cbn. eexists _, _, _. repeat split; reflexivity.
Qed.

(** Without the assumption of well-formedness: one entry point fails on
    a null shape exactly when the other does. *)
Lemma sample_ray_differential_defined (s : DistantSensorImpl)
      time ws fs aps active :
  sample_ray s time ws fs aps active = None <->
  sample_ray_differential s time ws fs aps active = None.
Proof.
  rewrite sample_ray_unfold, sample_ray_differential_unfold. cbn zeta.
  destruct (lane_target s time ws fs aps active) as [[tgt W]|]; cbn;
    [|tauto].
  destruct (place_origin _ _ _ _ _) as [[o a']|]; cbn; [|tauto].
  split; intros E; discriminate E.
Qed.
End EntryPoints.

(** C9, witness. *)
Lemma sample_ray_differential_agrees_witness :
  exists ray w rayd,
    sample_ray sensor_shape_miss 0%Qc 0%Qc half2 half2 true = Some (ray, w) /\
    sample_ray_differential sensor_shape_miss 0%Qc 0%Qc half2 half2 true =
      Some (rayd, w) /\
    ray_o (rd_ray rayd) = ray_o ray /\
    ray_d (rd_ray rayd) = ray_d ray /\
    ray_time (rd_ray rayd) = ray_time ray /\
    ray_wavelengths (rd_ray rayd) = ray_wavelengths ray /\
    has_differentials rayd = false.
Proof.
  apply sample_ray_differential_agrees.
  apply well_formed_sensor.
Defined.

(* ===================================================================== *)
(** ** Scene binding *)
(* ===================================================================== *)

Section SceneBinding.
Context {F : Type} {SF : Scalar F} {HF : Host SF}.

Lemma generation_keeps_sensor (calls : list Call) (s : DistantSensorImpl) :
  Forall (fun c => is_generation c = true) calls ->
  fold_left step calls s = s.
Proof.
  intros Hgen. revert s.
  induction Hgen as [|c calls Hc _ IH]; intros s; cbn; [reflexivity|].
  rewrite <- (IH s) at 2. f_equal.
  destruct c; [discriminate Hc | reflexivity | reflexivity].
Qed.

Lemma f_max_positive (a b : F) :
  (forall x y z : F, f_ltb x y = true -> f_ltb y z = true -> f_ltb x z = true) ->
  f_ltb f_zero a = true -> f_ltb f_zero (f_max a b) = true.
Proof.
  intros Htrans Ha. unfold f_max.
  destruct (f_ltb a b) eqn:E; [|exact Ha].
  exact (Htrans _ _ _ Ha E).
Qed.

(** C8, as amended.  After [set_scene] the stored radius is
    [max(eps, r * (1 + eps))]: the radius [r] of the bounding sphere of
    the scene inflated by [1 + eps] and then clamped to at least [eps],
    where [eps] is the ray epsilon.  It is positive whenever [eps] is (the
    order being transitive), also for [r = 0], and no sequence of
    ray-generation calls changes it. *)
Theorem set_scene_radius (s : DistantSensorImpl) (scene : Scene F)
        (calls : list Call) :
  f_ltb f_zero RayEpsilon = true ->
  (forall x y z : F, f_ltb x y = true -> f_ltb y z = true -> f_ltb x z = true) ->
  Forall (fun c => is_generation c = true) calls ->
  radius (m_bsphere (fold_left step calls (set_scene s scene))) =
    f_max RayEpsilon
          (f_mul (radius (scene_bounding_sphere scene))
                 (f_add f_one RayEpsilon)) /\
  f_ltb f_zero
        (radius (m_bsphere (fold_left step calls (set_scene s scene))))
    = true.
Proof.
  intros Heps Htrans Hgen.
  rewrite (generation_keeps_sensor _ Hgen). cbn.
  split; [reflexivity|].
  apply f_max_positive; assumption.
Qed.
End SceneBinding.

Lemma Qc_ltb_lt (a b : Qc) : Qc_ltb a b = true <-> (a < b)%Qc.
Proof.
  unfold Qc_ltb, Qclt, Qccompare. rewrite Qlt_alt.
  destruct (Qcompare a b); split; intros E; try reflexivity; discriminate E.
Qed.

Lemma Qc_ltb_trans (x y z : Qc) :
  Qc_ltb x y = true -> Qc_ltb y z = true -> Qc_ltb x z = true.
Proof. rewrite !Qc_ltb_lt. apply Qclt_trans. Qed.

(** C8, witness: a scene reduced to a point, followed by two generation
    calls. *)
Lemma set_scene_radius_witness :
  radius (m_bsphere
            (fold_left step
               [CallSampleRay (lane_at 0%Qc true);
                CallSampleRayDifferential (lane_at 0%Qc true)]
               (set_scene sensor_none_sphere
                          (mkScene (mkBoundingSphere3f zero3 0%Qc))))) =
    f_max RayEpsilon
          (f_mul (radius (scene_bounding_sphere
                            (mkScene (mkBoundingSphere3f zero3 0%Qc))))
                 (f_add f_one RayEpsilon)) /\
  f_ltb f_zero
        (radius (m_bsphere
                   (fold_left step
                      [CallSampleRay (lane_at 0%Qc true);
                       CallSampleRayDifferential (lane_at 0%Qc true)]
                      (set_scene sensor_none_sphere
                                 (mkScene (mkBoundingSphere3f zero3 0%Qc))))))
    = true.
Proof.
  apply set_scene_radius.
  - vm_compute. reflexivity.
  - exact Qc_ltb_trans.
  - repeat constructor.
Defined.

(** C8, counterexample to the claim as stated: for a scene of radius [0]
    the stored radius is [eps], not [max(eps, 0) * (1 + eps)]. *)
Lemma set_scene_radius_counterexample :
  radius (m_bsphere
            (set_scene sensor_none_sphere
                       (mkScene (mkBoundingSphere3f zero3 0%Qc)))) <>
  f_mul (f_max RayEpsilon
               (radius (scene_bounding_sphere
                          (mkScene (mkBoundingSphere3f zero3 0%Qc)))))
        (f_add f_one RayEpsilon).
Proof. qc_neq. Qed.

(** The stored radius there is [eps] itself. *)
Example set_scene_radius_degenerate :
  radius (m_bsphere
            (set_scene sensor_none_sphere
                       (mkScene (mkBoundingSphere3f zero3 0%Qc)))) =
  RayEpsilon.
Proof. qc_eq. Qed.

(* ===================================================================== *)
(** ** Construction *)
(* ===================================================================== *)

Section Construction.
Context {F : Type} {SF : Scalar F} {HF : Host SF}.
Local Abbreviation Properties := (gmap string (@PropValue F SF HF)).

Lemma load_unfold (props : Properties) :
  load props =
  (_ ← Sensor_ctor props;
   DistantSensorImpl_ctor (select_ray_target_type props)
                          (select_ray_origin_type props) props).
Proof.
  unfold load, DistantSensor_ctor, expand.
  destruct (Sensor_ctor props) as [b|msg]; cbn; [|reflexivity].
  destruct (select_ray_target_type props), (select_ray_origin_type props);
    reflexivity.
Qed.

(** What a successful construction has computed. *)
Lemma DistantSensorImpl_ctor_Ok T O (props : Properties)
      (s : DistantSensorImpl) :
  DistantSensorImpl_ctor T O props = Ok s ->
  TargetType s = T /\ OriginType s = O /\
  init_ray_target T props = Ok (m_ray_target_point s, m_ray_target_shape s) /\
  init_ray_origin O props = Ok (m_ray_origin_shape s) /\
  bool_ props "flip_directions" false = Ok (m_flip_directions s) /\
  m_direction_type s = select_direction_type (film_size (m_film s)) /\
  exists base_transform,
    Sensor_ctor props = Ok (base_transform, m_film s) /\
    compute_world_transform props base_transform = Ok (m_world_transform s).
Proof.
  unfold DistantSensorImpl_ctor.
  destruct (Sensor_ctor props) as [[base film]|msg]; cbn; [|discriminate].
  destruct (bool_ props "flip_directions" false) as [flip|msg]; cbn;
    [|discriminate].
  destruct (compute_world_transform props base) as [wt|msg] eqn:Ew; cbn;
    [|discriminate].
  destruct (init_ray_target T props) as [[tp ts]|msg]; cbn; [|discriminate].
  destruct (init_ray_origin O props) as [os|msg]; cbn; [|discriminate].
  intros [= <-]. cbn. do 6 (split; [reflexivity|]).
  exists base. split; [reflexivity | exact Ew].
Qed.

Lemma DistantSensorImpl_ctor_throw_target T O (props : Properties) msg :
  init_ray_target T props = Throw msg ->
  is_throw (DistantSensorImpl_ctor T O props) = true.
Proof.
  intros E. unfold DistantSensorImpl_ctor.
  destruct (Sensor_ctor props) as [[base film]|?]; cbn; [|reflexivity].
  destruct (bool_ props "flip_directions" false); cbn; [|reflexivity].
  destruct (compute_world_transform props base); cbn; [|reflexivity].
  rewrite E. reflexivity.
Qed.

Lemma DistantSensorImpl_ctor_throw_origin T O (props : Properties) msg :
  init_ray_origin O props = Throw msg ->
  is_throw (DistantSensorImpl_ctor T O props) = true.
Proof.
  intros E. unfold DistantSensorImpl_ctor.
  destruct (Sensor_ctor props) as [[base film]|?]; cbn; [|reflexivity].
  destruct (bool_ props "flip_directions" false); cbn; [|reflexivity].
  destruct (compute_world_transform props base); cbn; [|reflexivity].
  destruct (init_ray_target T props) as [[tp ts]|?]; cbn; [|reflexivity].
  rewrite E. reflexivity.
Qed.

Lemma load_throw (props : Properties) :
  is_throw (DistantSensorImpl_ctor (select_ray_target_type props)
                                   (select_ray_origin_type props) props)
    = true ->
  is_throw (load props) = true.
Proof.
  rewrite load_unfold.
  destruct (Sensor_ctor props); cbn; [trivial | reflexivity].
Qed.

Lemma load_Ok (props : Properties) (s : DistantSensorImpl) :
  load props = Ok s ->
  DistantSensorImpl_ctor (select_ray_target_type props)
                         (select_ray_origin_type props) props = Ok s.
Proof.
  rewrite load_unfold.
  destruct (Sensor_ctor props); cbn; [trivial | discriminate].
Qed.

(** A configuration whose other parameters are accepted and whose
    [ray_target] and [ray_origin], when they must reference a shape, do,
    loads. *)
Lemma load_success (props : Properties) base film flip world_transform
      (ts os : option (Shape F)) :
  Sensor_ctor props = Ok (base, film) ->
  bool_ props "flip_directions" false = Ok flip ->
  compute_world_transform props base = Ok world_transform ->
  match props !! "ray_target" with
  | None => ts = None
  | Some (PPoint3f _) => ts = None
  | Some (PObject (ObjShape sh)) => ts = Some sh
  | Some _ => False
  end ->
  match props !! "ray_origin" with
  | None => os = None
  | Some (PObject (ObjShape sh)) => os = Some sh
  | Some _ => False
  end ->
  exists s : DistantSensorImpl,
    load props = Ok s /\
    TargetType s = select_ray_target_type props /\
    OriginType s = select_ray_origin_type props /\
    m_world_transform s = world_transform /\
    m_film s = film /\
    m_flip_directions s = flip /\
    m_direction_type s = select_direction_type (film_size film) /\
    m_ray_target_shape s = ts /\
    m_ray_origin_shape s = os /\
    (forall p, props !! "ray_target" = Some (PPoint3f p) ->
               m_ray_target_point s = p).
Proof.
  intros Hs Hf Hw Htgt Hori.
  rewrite load_unfold, Hs. cbn.
  unfold DistantSensorImpl_ctor. rewrite Hs. cbn. rewrite Hf. cbn.
  rewrite Hw. cbn.
  unfold select_ray_target_type, select_ray_origin_type, init_ray_target,
    init_ray_origin, has_property, point3f, object.
  destruct (props !! "ray_target") as [[| | | |[sht| |]]|];
    try contradiction;
    (destruct (props !! "ray_origin") as [[| | | |[sho| |]]|];
     try contradiction);
    subst; cbn; eexists;
    (split; [reflexivity|]); cbn; repeat (split; [reflexivity|]);
    intros p0 E; try discriminate E; injection E as <-; reflexivity.
Qed.

(** C4.  The target tag is [None] when [ray_target] is absent, [Point]
    when it holds a point and [Shape] when it holds anything else; the
    origin tag is [BoundingSphere] when [ray_origin] is absent and [Shape]
    when it is present.  A configuration whose references are shapes where
    a shape is required, and whose other parameters are accepted, loads,
    and the sensor it yields is the specialisation with exactly these two
    tags, holding the point or the shapes the properties name.  Any load
    that succeeds yields that specialisation.  When the tag is [Shape] and
    the parameter does not reference a shape, the load throws. *)
Theorem strategy_selection (props : Properties) :
  select_ray_target_type props =
    match props !! "ray_target" with
    | None => RayTargetType.None
    | Some (PPoint3f _) => RayTargetType.Point
    | Some _ => RayTargetType.Shape
    end /\
  select_ray_origin_type props =
    match props !! "ray_origin" with
    | None => RayOriginType.BoundingSphere
    | Some _ => RayOriginType.Shape
    end /\
  (forall base film flip world_transform (ts os : option (Shape F)),
      Sensor_ctor props = Ok (base, film) ->
      bool_ props "flip_directions" false = Ok flip ->
      compute_world_transform props base = Ok world_transform ->
      match props !! "ray_target" with
      | None => ts = None
      | Some (PPoint3f _) => ts = None
      | Some (PObject (ObjShape sh)) => ts = Some sh
      | Some _ => False
      end ->
      match props !! "ray_origin" with
      | None => os = None
      | Some (PObject (ObjShape sh)) => os = Some sh
      | Some _ => False
      end ->
      exists s : DistantSensorImpl,
        load props = Ok s /\
        TargetType s = select_ray_target_type props /\
        OriginType s = select_ray_origin_type props /\
        m_world_transform s = world_transform /\
        m_film s = film /\
        m_flip_directions s = flip /\
        m_direction_type s = select_direction_type (film_size film) /\
        m_ray_target_shape s = ts /\
        m_ray_origin_shape s = os /\
        (forall p, props !! "ray_target" = Some (PPoint3f p) ->
                   m_ray_target_point s = p)) /\
  (forall s : DistantSensorImpl,
      load props = Ok s ->
      TargetType s = select_ray_target_type props /\
      OriginType s = select_ray_origin_type props /\
      well_formed s /\
      (TargetType s = RayTargetType.Point ->
       props !! "ray_target" = Some (PPoint3f (m_ray_target_point s))) /\
      (TargetType s = RayTargetType.Shape ->
       exists sh, props !! "ray_target" = Some (PObject (ObjShape sh)) /\
                  m_ray_target_shape s = Some sh) /\
      (OriginType s = RayOriginType.Shape ->
       exists sh, props !! "ray_origin" = Some (PObject (ObjShape sh)) /\
                  m_ray_origin_shape s = Some sh)) /\
  (select_ray_target_type props = RayTargetType.Shape ->
   (forall sh, props !! "ray_target" <> Some (PObject (ObjShape sh))) ->
   is_throw (load props) = true) /\
  (select_ray_origin_type props = RayOriginType.Shape ->
   (forall sh, props !! "ray_origin" <> Some (PObject (ObjShape sh))) ->
   is_throw (load props) = true).
Proof.
  split; [|split; [|split; [|split; [|split]]]].
  - unfold select_ray_target_type, has_property, point3f.
    destruct (props !! "ray_target") as [[]|]; reflexivity.
  - unfold select_ray_origin_type, has_property.
    destruct (props !! "ray_origin"); reflexivity.
  - intros base film flip world_transform ts os. apply load_success.
  - intros s Hs. apply load_Ok, DistantSensorImpl_ctor_Ok in Hs.
    destruct Hs as (HT & HO & Ht & Ho & _).
    assert (HtS : TargetType s = RayTargetType.Shape ->
                  exists sh, props !! "ray_target" = Some (PObject (ObjShape sh)) /\
                             m_ray_target_shape s = Some sh).
    { intros E. rewrite <- HT, E in Ht. cbn in Ht. unfold object in Ht.
      destruct (props !! "ray_target") as [[| | | |[sh| |]]|]; cbn in Ht;
        try discriminate Ht.
      injection Ht as _ <-. eauto. }
    assert (HoS : OriginType s = RayOriginType.Shape ->
                  exists sh, props !! "ray_origin" = Some (PObject (ObjShape sh)) /\
                             m_ray_origin_shape s = Some sh).
    { intros E. rewrite <- HO, E in Ho. cbn in Ho. unfold object in Ho.
      destruct (props !! "ray_origin") as [[| | | |[sh| |]]|]; cbn in Ho;
        try discriminate Ho.
      injection Ho as <-. eauto. }
    split; [exact HT|]. split; [exact HO|]. split; [|split; [|split]].
    + split; intros E.
      * destruct (HtS E) as (sh & _ & ->). eauto.
      * destruct (HoS E) as (sh & _ & ->). eauto.
    + intros E. rewrite <- HT, E in Ht. cbn in Ht. unfold point3f in Ht.
      destruct (props !! "ray_target") as [[]|]; cbn in Ht;
        try discriminate Ht.
      injection Ht as <- _. reflexivity.
    + exact HtS.
    + exact HoS.
  - intros E Hno. apply load_throw. rewrite E.
    assert (exists msg, init_ray_target RayTargetType.Shape props = Throw msg)
      as [msg Hm].
    { cbn. unfold object.
      destruct (props !! "ray_target") as [[| | | |[sh| |]]|] eqn:El; cbn;
        eauto.
      destruct (Hno sh). reflexivity. }
    eapply DistantSensorImpl_ctor_throw_target, Hm.
  - intros E Hno. apply load_throw. rewrite E.
    assert (exists msg, init_ray_origin RayOriginType.Shape props = Throw msg)
      as [msg Hm].
    { cbn. unfold object.
      destruct (props !! "ray_origin") as [[| | | |[sh| |]]|] eqn:El; cbn;
        eauto.
      destruct (Hno sh). reflexivity. }
    eapply DistantSensorImpl_ctor_throw_origin, Hm.
Qed.
End Construction.

(** C4, witness.  The configuration [props_shapes] names two shapes and a
    1x1 film next to [to_world]: it loads, as the [Shape]/[Shape]
    specialisation holding these two shapes.  In [props_bad_target] the
    parameter [ray_target] references an object that is not a shape: the
    tag is [Shape] and the load throws. *)
Lemma strategy_selection_witness :
  (exists s : DistantSensorImpl,
      load props_shapes = Ok s /\
      TargetType s = RayTargetType.Shape /\
      OriginType s = RayOriginType.Shape /\
      m_world_transform s = rotation_y_345 /\
      m_ray_target_shape s = Some target_shape /\
      m_ray_origin_shape s = Some shape_hit_early) /\
  is_throw (load props_bad_target) = true.
Proof.
  split.
  - destruct (proj1 (proj2 (proj2 (strategy_selection props_shapes)))
                rotation_y_345 (mkFilm (1, 1)%Z (Q2Qc (1 # 2))) false
                rotation_y_345 (Some target_shape) (Some shape_hit_early))
      as (s & Hload & HT & HO & Hw & _ & _ & _ & Hts & Hos & _).
    + reflexivity.
    + reflexivity.
    + reflexivity.
    + unfold props_shapes. rewrite lookup_insert_eq. reflexivity.
    + unfold props_shapes.
      rewrite lookup_insert_ne by discriminate.
      rewrite lookup_insert_eq. reflexivity.
    + exists s. split; [exact Hload|].
      split; [rewrite HT; reflexivity|].
      split; [rewrite HO; reflexivity|].
      split; [exact Hw|]. split; [exact Hts | exact Hos].
  - apply (proj1 (proj2 (proj2 (proj2 (proj2
             (strategy_selection props_bad_target)))))).
    + reflexivity.
    + intros sh E. unfold props_bad_target in E.
      rewrite lookup_insert_eq in E. discriminate E.
Defined.

(** C4, examples: a point target with the default origin, two shapes, and
    two configurations whose reference is not a shape. *)
Example load_point :
  exists s, load props_point = Ok s /\
            TargetType s = RayTargetType.Point /\
            OriginType s = RayOriginType.BoundingSphere /\
            m_ray_target_point s = mkVector3f 1%Qc 1%Qc 1%Qc.
Proof. eexists. repeat split; reflexivity. Qed.

Example load_shapes :
  exists s, load props_shapes = Ok s /\
            TargetType s = RayTargetType.Shape /\
            OriginType s = RayOriginType.Shape /\
            m_ray_target_shape s = Some target_shape /\
            m_ray_origin_shape s = Some shape_hit_early.
Proof. eexists. repeat split; reflexivity. Qed.

Example load_none :
  exists s, load props_to_world = Ok s /\
            TargetType s = RayTargetType.None /\
            OriginType s = RayOriginType.BoundingSphere.
Proof. eexists. repeat split; reflexivity. Qed.

Example load_bad_target :
  select_ray_target_type props_bad_target = RayTargetType.Shape /\
  is_throw (load props_bad_target) = true.
Proof. split; reflexivity. Qed.

Example load_bad_origin :
  select_ray_origin_type props_bad_origin = RayOriginType.Shape /\
  is_throw (load props_bad_origin) = true.
Proof. split; reflexivity. Qed.

Section DirectionMode.
Context {F : Type} {SF : Scalar F} {HF : Host SF}.
Local Abbreviation Properties := (gmap string (@PropValue F SF HF)).

Lemma step_keeps_direction_type (calls : list Call) (s : DistantSensorImpl) :
  m_direction_type (fold_left step calls s) = m_direction_type s.
Proof.
  revert s. induction calls as [|c calls IH]; intros s; cbn; [reflexivity|].
  rewrite IH. destruct c; reflexivity.
Qed.

(** C5.  For a film of resolution [(w, h)] with at least one column
    ([0 < w]), the mode is [Single] for [(1, 1)], [SampleWidth] (the
    planar sweep) for [h = 1] and [w > 1], and [SampleAll] (the
    hemisphere) for every other resolution, such as [w = 1] with [h > 1].
    The constructor stores this mode, and no later call changes it. *)
Theorem direction_mode_selection (w h : Z) :
  (0 < w)%Z ->
  ((w, h) = (1, 1)%Z ->
   select_direction_type (w, h) = RayDirectionType.Single) /\
  (h = 1%Z -> (1 < w)%Z ->
   select_direction_type (w, h) = RayDirectionType.SampleWidth) /\
  ((w, h) <> (1, 1)%Z -> ~ (h = 1%Z /\ (1 < w)%Z) ->
   select_direction_type (w, h) = RayDirectionType.SampleAll) /\
  (w = 1%Z -> (1 < h)%Z ->
   select_direction_type (w, h) = RayDirectionType.SampleAll) /\
  (forall T O (props : Properties) (s : DistantSensorImpl)
          (calls : list Call),
      DistantSensorImpl_ctor T O props = Ok s ->
      film_size (m_film s) = (w, h) ->
      m_direction_type (fold_left step calls s) =
      select_direction_type (w, h)).
Proof.
  intros Hw. unfold select_direction_type.
  split; [|split; [|split; [|split]]].
  - intros [= -> ->]. reflexivity.
  - intros -> Hgt.
    destruct (Z.eqb_spec w 1) as [->|_]; [lia | reflexivity].
  - intros Hne Hsw.
    destruct (Z.eqb_spec w 1) as [->|Hw1], (Z.eqb_spec h 1) as [->|Hh1];
      cbn; try reflexivity.
    + destruct Hne. reflexivity.
    + destruct Hsw. split; [reflexivity | lia].
  - intros -> Hgt.
    destruct (Z.eqb_spec h 1) as [->|_]; [lia | reflexivity].
  - intros T O props s calls Hs Hfilm.
    rewrite step_keeps_direction_type.
    apply DistantSensorImpl_ctor_Ok in Hs.
    destruct Hs as (_ & _ & _ & _ & _ & Hd & _).
    rewrite Hd, Hfilm. reflexivity.
Qed.

(** For any pair of integers, the exact reading of the selection. *)
Lemma select_direction_type_spec (w h : Z) :
  select_direction_type (w, h) =
    if decide (w = 1%Z /\ h = 1%Z) then RayDirectionType.Single
    else if decide (h = 1%Z) then RayDirectionType.SampleWidth
    else RayDirectionType.SampleAll.
Proof.
  unfold select_direction_type.
  destruct (Z.eqb_spec w 1), (Z.eqb_spec h 1); cbn;
    repeat (destruct (decide _)); try reflexivity; tauto.
Qed.
End DirectionMode.

(** C5, witness: the default film of 768 by 576 pixels. *)
Lemma direction_mode_selection_witness :
  ((768, 576)%Z = (1, 1)%Z ->
   select_direction_type (768, 576)%Z = RayDirectionType.Single) /\
  (576%Z = 1%Z -> (1 < 768)%Z ->
   select_direction_type (768, 576)%Z = RayDirectionType.SampleWidth) /\
  ((768, 576)%Z <> (1, 1)%Z -> ~ (576%Z = 1%Z /\ (1 < 768)%Z) ->
   select_direction_type (768, 576)%Z = RayDirectionType.SampleAll) /\
  (768%Z = 1%Z -> (1 < 576)%Z ->
   select_direction_type (768, 576)%Z = RayDirectionType.SampleAll) /\
  (forall T O (props : gmap string PropValue) (s : DistantSensorImpl)
          (calls : list Call),
      DistantSensorImpl_ctor T O props = Ok s ->
      film_size (m_film s) = (768, 576)%Z ->
      m_direction_type (fold_left step calls s) =
      select_direction_type (768, 576)%Z).
Proof.
  apply (@direction_mode_selection Qc _ _ 768%Z 576%Z). lia.
Defined.

Example direction_modes :
  select_direction_type (1, 1)%Z = RayDirectionType.Single /\
  select_direction_type (32, 1)%Z = RayDirectionType.SampleWidth /\
  select_direction_type (1, 32)%Z = RayDirectionType.SampleAll /\
  select_direction_type (32, 32)%Z = RayDirectionType.SampleAll.
Proof. repeat split; reflexivity. Qed.

Section Orientation.
Context {F : Type} {SF : Scalar F} {HF : Host SF}.
Local Abbreviation Properties := (gmap string (@PropValue F SF HF)).

Lemma compute_world_transform_no_direction (props : Properties) base :
  props !! "direction" = None ->
  compute_world_transform props base = Ok base.
Proof.
  intros E. unfold compute_world_transform, has_property. rewrite E.
  reflexivity.
Qed.

Lemma DistantSensorImpl_ctor_agree T O (p1 p2 : Properties) :
  agree_but_orientation p1 p2 ->
  p1 !! "direction" = None ->
  DistantSensorImpl_ctor T O p1 = DistantSensorImpl_ctor T O p2.
Proof.
  intros Hag Hdir.
  assert (Hdir2 : p2 !! "direction" = None)
    by (rewrite <- Hag; [exact Hdir | discriminate]).
  assert (Hbase : Sensor_ctor p1 = Sensor_ctor p2).
  { unfold Sensor_ctor, animated_transform.
    rewrite (Hag "to_world"), (Hag "film") by discriminate. reflexivity. }
  assert (Hflip : bool_ p1 "flip_directions" false =
                  bool_ p2 "flip_directions" false).
  { unfold bool_. rewrite (Hag "flip_directions") by discriminate.
    reflexivity. }
  assert (Htgt : init_ray_target T p1 = init_ray_target T p2).
  { unfold init_ray_target, point3f, object.
    rewrite (Hag "ray_target") by discriminate. reflexivity. }
  assert (Hori : init_ray_origin O p1 = init_ray_origin O p2).
  { unfold init_ray_origin, object.
    rewrite (Hag "ray_origin") by discriminate. reflexivity. }
  unfold DistantSensorImpl_ctor.
  rewrite Hbase, Hflip, Htgt, Hori.
  destruct (Sensor_ctor p2) as [[base film]|msg]; cbn; [|reflexivity].
  rewrite !compute_world_transform_no_direction by assumption.
  reflexivity.
Qed.

(** C10.  Let two configurations agree on every parameter but
    [orientation] (present in one and absent in the other, or present
    with two values), and let [direction] be absent.  Then loading them
    gives the same outcome: the same error, or the same sensor, so that
    the world transforms are equal and, once bound to a scene, both entry
    points return the same result on every input.  In particular this
    holds when [to_world] is supplied. *)
Theorem orientation_ignored_without_direction (p1 p2 : Properties) :
  agree_but_orientation p1 p2 ->
  p1 !! "direction" = None ->
  load p1 = load p2 /\
  (forall s1 s2 : DistantSensorImpl,
      load p1 = Ok s1 -> load p2 = Ok s2 ->
      m_world_transform s1 = m_world_transform s2 /\
      (forall scene time ws fs aps active,
          sample_ray (set_scene s1 scene) time ws fs aps active =
          sample_ray (set_scene s2 scene) time ws fs aps active /\
          sample_ray_differential (set_scene s1 scene) time ws fs aps active =
          sample_ray_differential (set_scene s2 scene) time ws fs aps active)).
Proof.
  intros Hag Hdir.
  assert (Hload : load p1 = load p2).
  { rewrite !load_unfold.
    assert (Hbase : Sensor_ctor p1 = Sensor_ctor p2).
    { unfold Sensor_ctor, animated_transform.
      rewrite (Hag "to_world"), (Hag "film") by discriminate. reflexivity. }
    assert (HT : select_ray_target_type p1 = select_ray_target_type p2).
    { unfold select_ray_target_type, has_property, point3f.
      rewrite (Hag "ray_target") by discriminate. reflexivity. }
    assert (HO : select_ray_origin_type p1 = select_ray_origin_type p2).
    { unfold select_ray_origin_type, has_property.
      rewrite (Hag "ray_origin") by discriminate. reflexivity. }
    rewrite Hbase, HT, HO.
    rewrite (DistantSensorImpl_ctor_agree _ _ Hag Hdir). reflexivity. }
  split; [exact Hload|].
  intros s1 s2 H1 H2. rewrite Hload, H2 in H1. injection H1 as <-.
  split; [reflexivity|]. intros. split; reflexivity.
Qed.
End Orientation.

(** C10, witness: [to_world] supplied, [orientation] absent in one
    configuration and set to [(1, 0, 0)] in the other. *)
Lemma orientation_ignored_without_direction_witness :
  load props_to_world = load (props_to_world_oriented (mkVector3f 1%Qc 0%Qc 0%Qc)) /\
  (forall s1 s2 : DistantSensorImpl,
      load props_to_world = Ok s1 ->
      load (props_to_world_oriented (mkVector3f 1%Qc 0%Qc 0%Qc)) = Ok s2 ->
      m_world_transform s1 = m_world_transform s2 /\
      (forall scene time ws fs aps active,
          sample_ray (set_scene s1 scene) time ws fs aps active =
          sample_ray (set_scene s2 scene) time ws fs aps active /\
          sample_ray_differential (set_scene s1 scene) time ws fs aps active =
          sample_ray_differential (set_scene s2 scene) time ws fs aps active)).
Proof.
  apply orientation_ignored_without_direction.
  - intros name Hname. unfold props_to_world_oriented.
    rewrite lookup_insert_ne by congruence. reflexivity.
  - reflexivity.
Defined.

(** With [direction] present the orientation does enter the transform:
    direction [(0,0,1)] with orientation [(1,0,0)] and with orientation
    [(0,1,0)] give two different world transforms. *)
Example orientation_used_with_direction :
  exists s1 s2,
    load (props_direction (mkVector3f 1%Qc 0%Qc 0%Qc)) = Ok s1 /\
    load (props_direction (mkVector3f 0%Qc 1%Qc 0%Qc)) = Ok s2 /\
    m_world_transform s1 <> m_world_transform s2.
Proof.
  eexists _, _. split; [reflexivity|]. split; [reflexivity|]. qc_neq.
Qed.

(* ===================================================================== *)
(** ** Further properties of construction *)
(* ===================================================================== *)

Section ConstructionMore.
Context {F : Type} {SF : Scalar F} {HF : Host SF}.
Local Abbreviation Properties := (gmap string (@PropValue F SF HF)).

(** X1.  When both [direction] and [to_world] are present, no
    specialisation can be constructed and loading throws, whatever the
    other parameters are. *)
Theorem conflicting_transform_throws (T : RayTargetType.t)
        (O : RayOriginType.t) (props : Properties) :
  has_property props "direction" = true ->
  has_property props "to_world" = true ->
  is_throw (DistantSensorImpl_ctor T O props) = true /\
  is_throw (load props) = true.
Proof.
  intros Hd Hw.
  assert (Hall : forall T' O',
             is_throw (DistantSensorImpl_ctor T' O' props) = true).
  { intros T' O'. unfold DistantSensorImpl_ctor.
    destruct (Sensor_ctor props) as [[base film]|?]; cbn; [|reflexivity].
    destruct (bool_ props "flip_directions" false); cbn; [|reflexivity].
    unfold compute_world_transform. rewrite Hd, Hw. reflexivity. }
  split; [apply Hall|]. apply load_throw, Hall.
Qed.

(** X2.  The nested switch of [expand] is uniform: it constructs the
    specialisation whose two template arguments are the stored tags, from
    the stored properties. *)
Theorem expand_uniform (ds : DistantSensor) :
  expand ds =
  DistantSensorImpl_ctor (m_ray_target_type ds) (m_ray_origin_type ds)
                         (m_props ds).
Proof.
  unfold expand.
  destruct (m_ray_target_type ds), (m_ray_origin_type ds); reflexivity.
Qed.

Lemma DistantSensorImpl_ctor_well_formed T O (props : Properties)
      (s : DistantSensorImpl) :
  DistantSensorImpl_ctor T O props = Ok s -> well_formed s.
Proof.
  intros Hs. apply DistantSensorImpl_ctor_Ok in Hs.
  destruct Hs as (HT & HO & Ht & Ho & _).
  split; intros E.
  - rewrite <- HT, E in Ht. cbn in Ht.
    destruct (object props "ray_target") as [obj|]; cbn in Ht;
      [|discriminate Ht].
    destruct (dynamic_cast_Shape obj); [|discriminate Ht].
    injection Ht as _ <-. eauto.
  - rewrite <- HO, E in Ho. cbn in Ho.
    destruct (object props "ray_origin") as [obj|]; cbn in Ho;
      [|discriminate Ho].
    destruct (dynamic_cast_Shape obj); [|discriminate Ho].
    injection Ho as <-. eauto.
Qed.

Lemma step_keeps_well_formed (calls : list Call) (s : DistantSensorImpl) :
  well_formed s -> well_formed (fold_left step calls s).
Proof.
  revert s. induction calls as [|c calls IH]; intros s Hwf; cbn; [exact Hwf|].
  apply IH. destruct c; exact Hwf.
Qed.

Lemma sample_ray_differential_total (s : DistantSensorImpl)
      time ws fs aps active :
  well_formed s -> is_Some (sample_ray_differential s time ws fs aps active).
Proof.
  intros Hwf.
  destruct (sample_ray_differential s time ws fs aps active) eqn:E; [eauto|].
  apply sample_ray_differential_defined in E.
  destruct (sample_ray_total time ws fs aps active Hwf) as [r Hr].
  rewrite Hr in E. discriminate E.
Qed.

(** X3.  A sensor that loading has returned never dereferences a null
    shape: after any sequence of calls (scene bindings and ray
    generations), both entry points return a ray and a weight on every
    input. *)
Theorem loaded_sensor_always_returns (props : Properties)
        (s : DistantSensorImpl) (calls : list Call)
        time ws fs aps active :
  load props = Ok s ->
  is_Some (sample_ray (fold_left step calls s) time ws fs aps active) /\
  is_Some (sample_ray_differential (fold_left step calls s)
                                   time ws fs aps active).
Proof.
  intros Hs.
  assert (Hwf : well_formed (fold_left step calls s)).
  { apply step_keeps_well_formed.
    eapply DistantSensorImpl_ctor_well_formed, load_Ok, Hs. }
  split.
  - apply sample_ray_total, Hwf.
  - apply sample_ray_differential_total, Hwf.
Qed.

(** X15.  The six specialisations register under six different class
    names: the name determines both tags, and it is [DistantSensor_]
    followed by the two tag names separated by an underscore. *)
Theorem class_name_injective (T T' : RayTargetType.t)
        (O O' : RayOriginType.t) :
  (distant_sensor_class_name T O = distant_sensor_class_name T' O' <->
   T = T' /\ O = O') /\
  distant_sensor_class_name T O =
    "DistantSensor_" ++ target_tag_name T ++ "_" ++ origin_tag_name O.
Proof.
  split; [split|].
  - destruct T, O, T', O'; cbn; intros E;
      first [split; reflexivity | discriminate E].
  - intros [-> ->]. reflexivity.
  - destruct T, O; reflexivity.
Qed.
End ConstructionMore.

(** X1, witness: [direction = (0,0,1)] next to a [to_world] rotation. *)
Lemma conflicting_transform_throws_witness :
  is_throw (DistantSensorImpl_ctor RayTargetType.None
                                   RayOriginType.BoundingSphere
                                   props_conflict) = true /\
  is_throw (load props_conflict) = true.
Proof.
  apply conflicting_transform_throws; reflexivity.
Defined.

(** X3, witness: the sensor loaded from [props_shapes], bound to a scene
    between two generations. *)
Lemma loaded_sensor_always_returns_witness :
  exists s,
    load props_shapes = Ok s /\
    is_Some (sample_ray
               (fold_left step
                  [CallSampleRay (lane_at 0%Qc true);
                   CallSetScene scene_unit;
                   CallSampleRayDifferential (lane_at 0%Qc true)] s)
               0%Qc 0%Qc half2 half2 true) /\
    is_Some (sample_ray_differential
               (fold_left step
                  [CallSampleRay (lane_at 0%Qc true);
                   CallSetScene scene_unit;
                   CallSampleRayDifferential (lane_at 0%Qc true)] s)
               0%Qc 0%Qc half2 half2 true).
Proof.
  eexists. split; [reflexivity|].
  apply (@loaded_sensor_always_returns Qc _ _ props_shapes). reflexivity.
Defined.

(* ===================================================================== *)
(** ** Further properties of ray generation *)
(* ===================================================================== *)

Section GeneratorMore.
Context {F : Type} {SF : Scalar F} {HF : Host SF}.

(** The film sample reaches the result through the direction only. *)
Lemma sample_ray_by_direction (s : DistantSensorImpl)
      time ws fs fs' aps active :
  lane_direction s time fs active = lane_direction s time fs' active ->
  sample_ray s time ws fs aps active = sample_ray s time ws fs' aps active /\
  sample_ray_differential s time ws fs aps active =
  sample_ray_differential s time ws fs' aps active.
Proof.
  intros Hd.
  rewrite !sample_ray_unfold, !sample_ray_differential_unfold.
  unfold lane_target. cbn zeta. rewrite Hd. split; reflexivity.
Qed.

Lemma place_origin_mask (s : DistantSensorImpl) time tgt d a o a' :
  place_origin s time tgt d a = Some (o, a') -> a = false -> a' = false.
Proof.
  unfold place_origin. intros E ->.
  destruct (OriginType s).
  - destruct (m_ray_origin_shape s); cbn in E; [|discriminate E].
    injection E as _ <-. reflexivity.
  - destruct (TargetType s); injection E as _ <-; reflexivity.
Qed.

(** X4.  Setting [flip_directions] reverses every ray: two sensors with
    the same world transform and direction mode and opposite flags generate
    opposite directions, when the transform commutes with negation and
    negation is an involution. *)
Theorem flip_negates_direction (s1 s2 : DistantSensorImpl)
        time fs active :
  (forall (trafo : Transform4f) (v : Vector3f F),
      transform_affine trafo (vneg v) = vneg (transform_affine trafo v)) ->
  (forall x : F, f_neg (f_neg x) = x) ->
  m_world_transform s1 = m_world_transform s2 ->
  m_direction_type s1 = m_direction_type s2 ->
  m_flip_directions s1 = negb (m_flip_directions s2) ->
  lane_direction s1 time fs active = vneg (lane_direction s2 time fs active).
Proof.
  intros Hlin Hinv Hw Hm Hf.
  unfold lane_direction, lane_trafo, world_direction, local_direction.
  rewrite Hw, Hm, Hf.
  destruct (m_flip_directions s2); cbn.
  - apply Hlin.
  - rewrite Hlin. unfold vneg at 1 2. cbn. rewrite !Hinv.
    destruct (transform_affine _ _); reflexivity.
Qed.

(** X5.  In [SampleWidth] mode the generator reads the film sample through
    its [x] coordinate only, and the local direction stays in the plane
    [y = 0]: two film samples with the same [x] give the same ray and
    weight from both entry points. *)
Theorem planar_sweep_reads_x_only (s : DistantSensorImpl)
        time ws fs fs' aps active :
  m_direction_type s = RayDirectionType.SampleWidth ->
  px fs = px fs' ->
  sample_ray s time ws fs aps active = sample_ray s time ws fs' aps active /\
  sample_ray_differential s time ws fs aps active =
  sample_ray_differential s time ws fs' aps active /\
  vy (local_direction s fs) = f_zero.
Proof.
  intros Hm Hx.
  assert (Hl : local_direction s fs = local_direction s fs').
  { unfold local_direction. rewrite Hm, Hx. reflexivity. }
  assert (Hd : lane_direction s time fs active =
               lane_direction s time fs' active).
  { unfold lane_direction, world_direction. rewrite Hl. reflexivity. }
  destruct (sample_ray_by_direction s time ws fs fs' aps active Hd) as [H1 H2].
  split; [exact H1|]. split; [exact H2|].
  unfold local_direction. rewrite Hm.
  destruct (sincos _). reflexivity.
Qed.

(** X6.  In [Single] mode the film sample is not read at all: ray and
    weight are the same for any two film samples, from both entry
    points. *)
Theorem single_mode_ignores_film_sample (s : DistantSensorImpl)
        time ws fs fs' aps active :
  m_direction_type s = RayDirectionType.Single ->
  sample_ray s time ws fs aps active = sample_ray s time ws fs' aps active /\
  sample_ray_differential s time ws fs aps active =
  sample_ray_differential s time ws fs' aps active.
Proof.
  intros Hm. apply sample_ray_by_direction.
  unfold lane_direction, world_direction, local_direction.
  rewrite Hm. reflexivity.
Qed.

(** X7.  The target point never depends on the film sample, under any
    target strategy and any direction mode; outside the [None] strategy
    the weight of the target step does not either. *)
Theorem target_ignores_film_sample (s : DistantSensorImpl)
        time ws fs fs' aps active :
  option_map fst (lane_target s time ws fs aps active) =
  option_map fst (lane_target s time ws fs' aps active) /\
  (TargetType s <> RayTargetType.None ->
   lane_target s time ws fs aps active =
   lane_target s time ws fs' aps active).
Proof.
  unfold lane_target, sample_target.
  destruct (TargetType s); cbn.
  - destruct (m_ray_target_shape s); cbn; split; reflexivity.
  - split; reflexivity.
  - split; [reflexivity|]. intros E. destruct E. reflexivity.
Qed.

(** X8.  Under the [Point] target strategy the target is the configured
    point, the aperture sample is not read (ray and weight are the same
    for any two aperture samples), and the weight of a valid sample is the
    spectral weight itself. *)
Theorem point_target_sample (s : DistantSensorImpl)
        time ws fs aps active :
  TargetType s = RayTargetType.Point ->
  well_formed s ->
  exists ray w valid,
    sample_ray s time ws fs aps active = Some (ray, w) /\
    sample_valid s time ws fs aps active = Some valid /\
    lane_target s time ws fs aps active =
      Some (m_ray_target_point s, snd (sample_wavelength ws)) /\
    (valid = true -> w = snd (sample_wavelength ws)) /\
    (forall aps', sample_ray s time ws fs aps' active = Some (ray, w)).
Proof.
  intros HT Hwf.
  assert (Ht : forall aps0,
             lane_target s time ws fs aps0 active =
             Some (m_ray_target_point s, snd (sample_wavelength ws))).
  { intros aps0. unfold lane_target, sample_target. rewrite HT. reflexivity. }
  destruct (place_origin_total time (m_ray_target_point s)
              (lane_direction s time fs active) (lane_mask active) Hwf)
    as [[o a'] Ho].
  edestruct sample_ray_result as [Hr Hv]; [exact (Ht aps) | exact Ho |].
  eexists _, _, _. split; [exact Hr|]. split; [exact Hv|].
  split; [apply Ht|]. split.
  - apply mask_and_twice_true.
  - intros aps'.
    edestruct sample_ray_result as [Hr' _]; [exact (Ht aps') | exact Ho |].
    exact Hr'.
Qed.

(** X9.  A lane whose mask is off once the two macros have run (the
    caller's mask as [MTS_MASKED_FUNCTION] leaves it, or that one as
    [MTS_MASK_ARGUMENT] leaves it) comes back with weight zero on every
    channel from both entry points, under every strategy.  Where the macros
    keep the caller's mask this is every lane the caller masked off; where
    they force the mask on, as in a scalar variant, no lane is concerned. *)
Theorem inactive_lane_zero_weight (s : DistantSensorImpl)
        time ws fs aps active :
  well_formed s ->
  lane_mask active && MTS_MASKED_FUNCTION active = false ->
  exists ray rayd w,
    sample_ray s time ws fs aps active = Some (ray, w) /\
    sample_ray_differential s time ws fs aps active = Some (rayd, w) /\
    sample_valid s time ws fs aps active = Some false /\
    spectrum_is_zero w.
Proof.
  intros Hwf Hoff.
  destruct (lane_target_total time ws fs aps active Hwf) as [[tgt W] Ht].
  destruct (place_origin_total time tgt (lane_direction s time fs active)
              (lane_mask active) Hwf) as [[o a'] Ho].
  assert (Ha : a' && MTS_MASKED_FUNCTION active = false).
  { assert (Hm : lane_mask active = false -> a' = false)
      by (intros E; eapply place_origin_mask; [exact Ho | exact E]).
    destruct (lane_mask active).
    - cbn in Hoff. rewrite Hoff. apply andb_false_r.
    - rewrite (Hm eq_refl). reflexivity. }
  edestruct sample_ray_result as [Hr Hv]; [exact Ht | exact Ho |].
  eexists _, _, _. split; [exact Hr|]. split; [|split].
  - rewrite sample_ray_differential_unfold. cbn zeta. rewrite Ht. cbn.
    rewrite Ho. reflexivity.
  - rewrite Hv, Ha. reflexivity.
  - apply mask_and_twice_false, Ha.
Qed.

(** X10.  The ray an entry point returns carries the time it was asked
    for, the wavelengths of the wavelength sampler, and a reciprocal
    direction that matches its direction ([update()] has run). *)
Theorem returned_ray_fields (s : DistantSensorImpl)
        time ws fs aps active :
  well_formed s ->
  exists ray rayd w,
    sample_ray s time ws fs aps active = Some (ray, w) /\
    sample_ray_differential s time ws fs aps active = Some (rayd, w) /\
    ray_time ray = time /\
    ray_wavelengths ray = fst (sample_wavelength ws) /\
    ray_d_rcp ray = vrcp (ray_d ray) /\
    rd_ray rayd = ray.
Proof.
  intros Hwf.
  destruct (lane_target_total time ws fs aps active Hwf) as [[tgt W] Ht].
  destruct (place_origin_total time tgt (lane_direction s time fs active)
              (lane_mask active) Hwf) as [[o a'] Ho].
  edestruct sample_ray_result as [Hr _]; [exact Ht | exact Ho |].
  eexists _, _, _. split; [exact Hr|]. split.
  - rewrite sample_ray_differential_unfold. cbn zeta. rewrite Ht. cbn.
    rewrite Ho. reflexivity.
  - repeat split; reflexivity.
Qed.

(** X11.  The wavelength sample reaches the wavelengths and the weight
    only: origin, direction, reciprocal direction and time of the returned
    ray, and the validity of the sample, are the same for any two
    wavelength samples. *)
Theorem geometry_ignores_wavelength_sample (s : DistantSensorImpl)
        time ws ws' fs aps active :
  option_map (fun r : Ray3f F * Spectrum F =>
                (ray_o (fst r), ray_d (fst r), ray_d_rcp (fst r),
                 ray_time (fst r)))
             (sample_ray s time ws fs aps active) =
  option_map (fun r : Ray3f F * Spectrum F =>
                (ray_o (fst r), ray_d (fst r), ray_d_rcp (fst r),
                 ray_time (fst r)))
             (sample_ray s time ws' fs aps active) /\
  sample_valid s time ws fs aps active =
  sample_valid s time ws' fs aps active.
Proof.
  rewrite !sample_ray_unfold, !sample_valid_unfold.
  unfold lane_target, sample_target. cbn zeta.
  destruct (TargetType s); cbn.
  - destruct (m_ray_target_shape s); cbn; [|split; reflexivity].
    destruct (place_origin _ _ _ _ _) as [[o a']|]; cbn; split; reflexivity.
  - destruct (place_origin _ _ _ _ _) as [[o a']|]; cbn; split; reflexivity.
  - destruct (place_origin _ _ _ _ _) as [[o a']|]; cbn; split; reflexivity.
Qed.
End GeneratorMore.

Section SceneMore.
Context {F : Type} {SF : Scalar F} {HF : Host SF}.

(** X12.  With a [Shape] origin and a [Point] or [Shape] target the
    bounding sphere is never read: binding the sensor to any scene leaves
    the results of both entry points as they were. *)
Theorem shape_origin_ignores_scene (s : DistantSensorImpl) (scene : Scene F)
        time ws fs aps active :
  TargetType s <> RayTargetType.None ->
  OriginType s = RayOriginType.Shape ->
  sample_ray (set_scene s scene) time ws fs aps active =
  sample_ray s time ws fs aps active /\
  sample_ray_differential (set_scene s scene) time ws fs aps active =
  sample_ray_differential s time ws fs aps active.
Proof.
  intros HT HO.
  rewrite !sample_ray_unfold, !sample_ray_differential_unfold. cbn zeta.
  change (lane_direction (set_scene s scene) time fs active)
    with (lane_direction s time fs active).
  assert (Ht : lane_target (set_scene s scene) time ws fs aps active =
               lane_target s time ws fs aps active).
  { unfold lane_target, sample_target. cbn.
    destruct (TargetType s); [reflexivity | reflexivity |].
    destruct HT. reflexivity. }
  assert (Ho : forall tgt d a,
             place_origin (set_scene s scene) time tgt d a =
             place_origin s time tgt d a).
  { intros tgt d a. unfold place_origin. cbn. rewrite HO. reflexivity. }
  rewrite Ht.
  destruct (lane_target s time ws fs aps active) as [[tgt W]|]; cbn;
    [|split; reflexivity].
  rewrite Ho. split; reflexivity.
Qed.

Lemma fold_step_direction (calls : list Call) (s : DistantSensorImpl)
      time fs active :
  lane_direction (fold_left step calls s) time fs active =
  lane_direction s time fs active.
Proof.
  revert s. induction calls as [|c calls IH]; intros s; cbn; [reflexivity|].
  rewrite IH. destruct c; reflexivity.
Qed.

(** X13.  No call changes the direction a sensor generates: after any
    sequence of scene bindings and ray generations the direction for a
    given time, film sample and mask is the one of the sensor as
    constructed, and the two strategy tags are unchanged. *)
Theorem calls_keep_direction (calls : list Call) (s : DistantSensorImpl)
        time fs active :
  lane_direction (fold_left step calls s) time fs active =
  lane_direction s time fs active /\
  TargetType (fold_left step calls s) = TargetType s /\
  OriginType (fold_left step calls s) = OriginType s.
Proof.
  split; [apply fold_step_direction|].
  revert s. induction calls as [|c calls IH]; intros s; cbn;
    [split; reflexivity|].
  destruct (IH (step s c)) as (HT & HO).
  rewrite HT, HO. destruct c; split; reflexivity.
Qed.

(** X14.  The radius [set_scene] stores is one of its two candidates and
    lies below neither: it is not less than the ray epsilon and not less
    than the inflated scene radius, when [<] is asymmetric. *)
Theorem stored_radius_bounds (s : DistantSensorImpl) (scene : Scene F) :
  (forall x y : F, f_ltb x y = true -> f_ltb y x = false) ->
  f_ltb (radius (m_bsphere (set_scene s scene))) RayEpsilon = false /\
  f_ltb (radius (m_bsphere (set_scene s scene)))
        (f_mul (radius (scene_bounding_sphere scene))
               (f_add f_one RayEpsilon)) = false /\
  (radius (m_bsphere (set_scene s scene)) = RayEpsilon \/
   radius (m_bsphere (set_scene s scene)) =
     f_mul (radius (scene_bounding_sphere scene)) (f_add f_one RayEpsilon)).
Proof.
  intros Hasym.
  assert (Hirr : forall x : F, f_ltb x x = false).
  { intros x. destruct (f_ltb x x) eqn:E; [|reflexivity].
    rewrite (Hasym _ _ E) in E. discriminate E. }
  cbn. unfold f_max.
  destruct (f_ltb RayEpsilon _) eqn:E.
  - split; [apply Hasym, E|]. split; [apply Hirr | right; reflexivity].
  - split; [apply Hirr|]. split; [exact E | left; reflexivity].
Qed.
End SceneMore.

Section OriginMore.
Context {F : Type} {SF : Scalar F} {HF : Host SF}.

(** X17.  With a [Shape] origin, an active lane whose probe ray hits the
    origin shape gets the hit point as ray origin and keeps the weight of
    the target step unchanged. *)
Theorem shape_origin_hit (s : DistantSensorImpl) (sh : Shape F)
        time ws fs aps active tgt W :
  OriginType s = RayOriginType.Shape ->
  m_ray_origin_shape s = Some sh ->
  lane_target s time ws fs aps active = Some (tgt, W) ->
  lane_mask active = true ->
  MTS_MASKED_FUNCTION active = true ->
  si_is_valid
    (ray_intersect sh
       (probe_ray tgt (lane_direction s time fs active) time)
       (lane_mask active)) = true ->
  exists ray,
    sample_ray s time ws fs aps active = Some (ray, W) /\
    sample_valid s time ws fs aps active = Some true /\
    ray_o ray =
      si_p (ray_intersect sh
              (probe_ray tgt (lane_direction s time fs active) time)
              (lane_mask active)).
Proof.
  intros HO Hsh Ht Hm HM Hhit.
  assert (Ho : place_origin s time tgt (lane_direction s time fs active)
                 (lane_mask active) =
               Some (si_p (ray_intersect sh
                       (probe_ray tgt (lane_direction s time fs active) time)
                       (lane_mask active)),
                     true)).
  { unfold place_origin. rewrite HO, Hsh. cbn.
    unfold probe_ray in Hhit. rewrite Hhit, Hm. reflexivity. }
  edestruct sample_ray_result as [Hr Hv]; [exact Ht | exact Ho |].
  rewrite HM in Hr, Hv.
  eexists. split; [exact Hr|]. split; [exact Hv | reflexivity].
Qed.
End OriginMore.

(* ===================================================================== *)
(** ** Witnesses of the further properties *)
(* ===================================================================== *)

Lemma Matrix3_apply_neg (m : Matrix3) (v : Vector3f Qc) :
  Matrix3_apply m (vneg v) = vneg (Matrix3_apply m v).
Proof.
  unfold Matrix3_apply, vneg, dot. cbn. f_equal; ring.
Qed.

Lemma Qc_ltb_asym (x y : Qc) : Qc_ltb x y = true -> Qc_ltb y x = false.
Proof.
  intros Hxy. destruct (Qc_ltb y x) eqn:Hyx; [|reflexivity].
  apply Qc_ltb_lt in Hxy, Hyx.
  destruct (Qclt_not_le _ _ Hxy). apply Qclt_le_weak, Hyx.
Qed.

(** X4, witness: the flipped and the unflipped sensor aimed at a point. *)
Lemma flip_negates_direction_witness :
  lane_direction sensor_point_sphere_flipped 0%Qc half2 true =
  vneg (lane_direction sensor_point_sphere 0%Qc half2 true).
Proof.
  apply flip_negates_direction.
  - exact Matrix3_apply_neg.
  - exact Qcopp_involutive.
  - reflexivity.
  - reflexivity.
  - reflexivity.
Defined.

(** X5, witness: two film samples of abscissa 1/2 on the sweep sensor. *)
Lemma planar_sweep_reads_x_only_witness :
  sample_ray sensor_sweep 0%Qc 0%Qc half2 half2 true =
  sample_ray sensor_sweep 0%Qc 0%Qc (mkPoint2f (Q2Qc (1 # 2)) 0%Qc) half2 true /\
  sample_ray_differential sensor_sweep 0%Qc 0%Qc half2 half2 true =
  sample_ray_differential sensor_sweep 0%Qc 0%Qc
                          (mkPoint2f (Q2Qc (1 # 2)) 0%Qc) half2 true /\
  vy (local_direction sensor_sweep half2) = f_zero.
Proof.
  apply planar_sweep_reads_x_only; reflexivity.
Defined.

(** X6, witness. *)
Lemma single_mode_ignores_film_sample_witness :
  sample_ray sensor_point_sphere 0%Qc 0%Qc half2 half2 true =
  sample_ray sensor_point_sphere 0%Qc 0%Qc (mkPoint2f 0%Qc 0%Qc) half2 true /\
  sample_ray_differential sensor_point_sphere 0%Qc 0%Qc half2 half2 true =
  sample_ray_differential sensor_point_sphere 0%Qc 0%Qc
                          (mkPoint2f 0%Qc 0%Qc) half2 true.
Proof.
  apply single_mode_ignores_film_sample. reflexivity.
Defined.

(** X8, witness. *)
Lemma point_target_sample_witness :
  exists ray w valid,
    sample_ray sensor_point_early 0%Qc 0%Qc half2 half2 true = Some (ray, w) /\
    sample_valid sensor_point_early 0%Qc 0%Qc half2 half2 true = Some valid /\
    lane_target sensor_point_early 0%Qc 0%Qc half2 half2 true =
      Some (m_ray_target_point sensor_point_early,
            snd (sample_wavelength 0%Qc)) /\
    (valid = true -> w = snd (sample_wavelength 0%Qc)) /\
    (forall aps',
        sample_ray sensor_point_early 0%Qc 0%Qc half2 aps' true =
        Some (ray, w)).
Proof.
  apply point_target_sample.
  - reflexivity.
  - split; intros E; [discriminate E | eexists; reflexivity].
Defined.

(** X9, witness: a lane the caller has masked off, on a host whose macros
    keep the caller's mask. *)
Lemma inactive_lane_zero_weight_witness :
  exists ray rayd w,
    sample_ray sensor_shape_sphere 0%Qc 0%Qc half2 half2 false =
      Some (ray, w) /\
    sample_ray_differential sensor_shape_sphere 0%Qc 0%Qc half2 half2 false =
      Some (rayd, w) /\
    sample_valid sensor_shape_sphere 0%Qc 0%Qc half2 half2 false =
      Some false /\
    spectrum_is_zero w.
Proof.
  apply inactive_lane_zero_weight.
  - split; intros E; [eexists; reflexivity | discriminate E].
  - reflexivity.
Defined.

(** X10, witness. *)
Lemma returned_ray_fields_witness :
  exists ray rayd w,
    sample_ray sensor_none_sphere (Q2Qc 2) 0%Qc half2 half2 true =
      Some (ray, w) /\
    sample_ray_differential sensor_none_sphere (Q2Qc 2) 0%Qc half2 half2 true =
      Some (rayd, w) /\
    ray_time ray = Q2Qc 2 /\
    ray_wavelengths ray = fst (sample_wavelength 0%Qc) /\
    ray_d_rcp ray = vrcp (ray_d ray) /\
    rd_ray rayd = ray.
Proof.
  apply returned_ray_fields.
  split; intros E; discriminate E.
Defined.

(** X12, witness: the sensor aimed at a point with a shape origin, bound
    to the unit-sphere scene. *)
Lemma shape_origin_ignores_scene_witness :
  sample_ray (set_scene sensor_point_early scene_unit)
             0%Qc 0%Qc half2 half2 true =
  sample_ray sensor_point_early 0%Qc 0%Qc half2 half2 true /\
  sample_ray_differential (set_scene sensor_point_early scene_unit)
                          0%Qc 0%Qc half2 half2 true =
  sample_ray_differential sensor_point_early 0%Qc 0%Qc half2 half2 true.
Proof.
  apply shape_origin_ignores_scene.
  - intros E. discriminate E.
  - reflexivity.
Defined.

(** With a bounding-sphere origin the scene does matter: the same point
    target seen from the default sphere and from the unit-sphere scene. *)
Example bounding_sphere_origin_reads_scene :
  sample_ray (set_scene sensor_point_sphere scene_unit)
             0%Qc 0%Qc half2 half2 true <>
  sample_ray sensor_point_sphere 0%Qc 0%Qc half2 half2 true.
Proof. qc_neq. Qed.

(** X14, witness: the point scene, where the stored radius is the ray
    epsilon. *)
Lemma stored_radius_bounds_witness :
  f_ltb (radius (m_bsphere (set_scene sensor_none_sphere scene_point)))
        RayEpsilon = false /\
  f_ltb (radius (m_bsphere (set_scene sensor_none_sphere scene_point)))
        (f_mul (radius (scene_bounding_sphere scene_point))
               (f_add f_one RayEpsilon)) = false /\
  (radius (m_bsphere (set_scene sensor_none_sphere scene_point)) =
     RayEpsilon \/
   radius (m_bsphere (set_scene sensor_none_sphere scene_point)) =
     f_mul (radius (scene_bounding_sphere scene_point))
           (f_add f_one RayEpsilon)).
Proof.
  apply stored_radius_bounds. exact Qc_ltb_asym.
Defined.

(** X17, witness: the lane of time [0] hits the origin shape at
    [(0, 0, 5)]. *)
Lemma shape_origin_hit_witness :
  exists ray,
    sample_ray sensor_point_early 0%Qc 0%Qc half2 half2 true =
      Some (ray, [1%Qc; 1%Qc; 1%Qc]) /\
    sample_valid sensor_point_early 0%Qc 0%Qc half2 half2 true = Some true /\
    ray_o ray =
      si_p (ray_intersect shape_hit_early
              (probe_ray (mkVector3f 1%Qc 1%Qc 1%Qc)
                         (lane_direction sensor_point_early 0%Qc half2 true)
                         0%Qc)
              (lane_mask true)).
Proof.
  apply (@shape_origin_hit Qc _ _ sensor_point_early shape_hit_early
           0%Qc 0%Qc half2 half2 true
           (mkVector3f 1%Qc 1%Qc 1%Qc) [1%Qc; 1%Qc; 1%Qc]).
  - reflexivity.
  - reflexivity.
  - reflexivity.
  - reflexivity.
  - reflexivity.
  - vm_compute. reflexivity.
Defined.

(* ===================================================================== *)
(** ** From the configuration to the rays *)
(* ===================================================================== *)

Section LoadedSensor.
Context {F : Type} {SF : Scalar F} {HF : Host SF}.
Local Abbreviation Properties := (gmap string (@PropValue F SF HF)).

Lemma loaded_flip_directions (props : Properties) (s : DistantSensorImpl) :
  load props = Ok s ->
  m_flip_directions s =
    match props !! "flip_directions" with
    | Some (PBool b) => b
    | _ => false
    end.
Proof.
  intros Hs. apply load_Ok, DistantSensorImpl_ctor_Ok in Hs.
  destruct Hs as (_ & _ & _ & _ & Hf & _).
  unfold bool_ in Hf.
  destruct (props !! "flip_directions") as [[]|]; try discriminate Hf;
    injection Hf as <-; reflexivity.
Qed.

(** X18.  A sensor loaded with a 1x1 film sends every ray along the world
    transform of [-(0,0,1)], or of [(0,0,1)] when [flip_directions] is set
    to true; an absent [flip_directions] counts as false; and this holds
    after any sequence of calls. *)
Theorem loaded_single_direction (props : Properties) (s : DistantSensorImpl)
        (calls : list Call) time fs active :
  load props = Ok s ->
  film_size (m_film s) = (1, 1)%Z ->
  lane_direction (fold_left step calls s) time fs active =
    transform_affine
      (lane_trafo s time active)
      (match props !! "flip_directions" with
       | Some (PBool true) => axis_z
       | _ => vneg axis_z
       end).
Proof.
  intros Hs Hfilm.
  rewrite fold_step_direction.
  pose proof (loaded_flip_directions props Hs) as Hflip.
  apply load_Ok, DistantSensorImpl_ctor_Ok in Hs.
  destruct Hs as (_ & _ & _ & _ & _ & Hm & _).
  rewrite Hfilm in Hm. cbn in Hm.
  unfold lane_direction, world_direction, local_direction.
  rewrite Hm, Hflip.
  destruct (props !! "flip_directions") as [[[]| | | |]|]; reflexivity.
Qed.

(** X19.  With a [BoundingSphere] origin, binding a scene moves ray
    origins only: direction, wavelengths, time and weight of the result
    are the same before and after [set_scene]. *)
Theorem bounding_sphere_scene_moves_origin_only (s : DistantSensorImpl)
        (scene : Scene F) time ws fs aps active :
  OriginType s = RayOriginType.BoundingSphere ->
  option_map (fun r : Ray3f F * Spectrum F =>
                (ray_d (fst r), ray_d_rcp (fst r), ray_time (fst r),
                 ray_wavelengths (fst r), snd r))
             (sample_ray (set_scene s scene) time ws fs aps active) =
  option_map (fun r : Ray3f F * Spectrum F =>
                (ray_d (fst r), ray_d_rcp (fst r), ray_time (fst r),
                 ray_wavelengths (fst r), snd r))
             (sample_ray s time ws fs aps active).
Proof.
  intros HO.
  rewrite !sample_ray_unfold. cbn zeta.
  change (lane_direction (set_scene s scene) time fs active)
    with (lane_direction s time fs active).
  unfold lane_target, sample_target, place_origin. cbn.
  rewrite HO.
  destruct (TargetType s); cbn; [|reflexivity|reflexivity].
  destruct (m_ray_target_shape s); reflexivity.
Qed.

(** X20.  When [direction] is present, the world transform is a function
    of [direction] and [orientation] alone: two configurations that agree
    on these two entries and load successfully give the same world
    transform, whatever else they hold. *)
Theorem direction_determines_transform (p1 p2 : Properties)
        (s1 s2 : DistantSensorImpl) :
  is_Some (p1 !! "direction") ->
  p1 !! "direction" = p2 !! "direction" ->
  p1 !! "orientation" = p2 !! "orientation" ->
  load p1 = Ok s1 ->
  load p2 = Ok s2 ->
  m_world_transform s1 = m_world_transform s2.
Proof.
  intros [v Hd1] Hd Hor H1 H2.
  apply load_Ok, DistantSensorImpl_ctor_Ok in H1, H2.
  destruct H1 as (_ & _ & _ & _ & _ & _ & b1 & _ & Hw1).
  destruct H2 as (_ & _ & _ & _ & _ & _ & b2 & _ & Hw2).
  unfold compute_world_transform, has_property, vector3f in Hw1, Hw2.
  rewrite <- Hd, <- Hor in Hw2. rewrite Hd1 in Hw1, Hw2.
  destruct (p1 !! "to_world"), (p2 !! "to_world");
    try discriminate Hw1; try discriminate Hw2.
  destruct v; cbn in Hw1, Hw2; try discriminate Hw1.
  destruct (p1 !! "orientation") as [[]|]; cbn in Hw1, Hw2;
    try discriminate Hw1; congruence.
Qed.
End LoadedSensor.

(** X18, witness: the sensor loaded from [props_shapes], whose film is
    1x1 and which does not name [flip_directions]. *)
Lemma loaded_single_direction_witness :
  exists s,
    load props_shapes = Ok s /\
    lane_direction (fold_left step [CallSetScene scene_unit] s)
                   0%Qc half2 true =
      transform_affine
        (lane_trafo s 0%Qc true)
        (match props_shapes !! "flip_directions" with
         | Some (PBool true) => axis_z
         | _ => vneg axis_z
         end).
Proof.
  eexists. split; [reflexivity|].
  apply (@loaded_single_direction Qc _ _ props_shapes); reflexivity.
Defined.

(** X19, witness. *)
Lemma bounding_sphere_scene_moves_origin_only_witness :
  option_map (fun r : Ray3f Qc * Spectrum Qc =>
                (ray_d (fst r), ray_d_rcp (fst r), ray_time (fst r),
                 ray_wavelengths (fst r), snd r))
             (sample_ray (set_scene sensor_none_sphere scene_unit)
                         0%Qc 0%Qc half2 half2 true) =
  option_map (fun r : Ray3f Qc * Spectrum Qc =>
                (ray_d (fst r), ray_d_rcp (fst r), ray_time (fst r),
                 ray_wavelengths (fst r), snd r))
             (sample_ray sensor_none_sphere 0%Qc 0%Qc half2 half2 true).
Proof.
  apply bounding_sphere_scene_moves_origin_only. reflexivity.
Defined.

(** X20, witness: [props_direction] and the same configuration with a
    [flip_directions] entry added. *)
Lemma direction_determines_transform_witness :
  exists s1 s2,
    load (props_direction (mkVector3f 1%Qc 0%Qc 0%Qc)) = Ok s1 /\
    load (<[ "flip_directions" := PBool true ]>
            (props_direction (mkVector3f 1%Qc 0%Qc 0%Qc))) = Ok s2 /\
    m_world_transform s1 = m_world_transform s2.
Proof.
  eexists _, _. split; [reflexivity|]. split; [reflexivity|].
  apply (@direction_determines_transform Qc _ _
           (props_direction (mkVector3f 1%Qc 0%Qc 0%Qc))
           (<[ "flip_directions" := PBool true ]>
              (props_direction (mkVector3f 1%Qc 0%Qc 0%Qc)))).
  - eexists. reflexivity.
  - reflexivity.
  - reflexivity.
  - reflexivity.
  - reflexivity.
Defined.

(** X16.  The direction mode on every pair of integers, positive or not:
    [Single] exactly for [(1, 1)], [SampleWidth] exactly for height [1]
    and any other width, [SampleAll] exactly for any other height. *)
Theorem direction_mode_exact (w h : Z) :
  (select_direction_type (w, h) = RayDirectionType.Single <->
   w = 1%Z /\ h = 1%Z) /\
  (select_direction_type (w, h) = RayDirectionType.SampleWidth <->
   h = 1%Z /\ w <> 1%Z) /\
  (select_direction_type (w, h) = RayDirectionType.SampleAll <->
   h <> 1%Z).
Proof.
  unfold select_direction_type.
  destruct (Z.eqb_spec w 1) as [Hw|Hw], (Z.eqb_spec h 1) as [Hh|Hh]; cbn;
    (split; [|split]); (split; intros E);
    first [discriminate E | reflexivity | tauto].
Qed.

(** On the scalar binary64 host the macros force the mask on: a lane the
    caller passes as inactive is generated all the same and keeps its
    weight. *)
Example scalar_variant_forces_mask :
  exists ray,
    sample_ray fsensor_point_sphere 0%float 0%float fhalf2 fhalf2 false =
      Some (ray, [1%float; 1%float; 1%float]) /\
    sample_valid fsensor_point_sphere 0%float 0%float fhalf2 fhalf2 false =
      Some true.
Proof. eexists. split; reflexivity. Qed.
